(** * PokeBall Plus controller driver: the input-report decoder and the
      connection session of [PokeballPlusApp/main.py]

    The development embeds the two methods of [PokeballApp] that carry the
    program's logic:

    - [handle_input], the notification callback that decodes one input
      report and appends one line to the log widget;
    - [connect_to_device], the coroutine that scans, connects, reads the
      device information, subscribes to the input report and waits.

    Python values are represented as follows.  A [bytes]/[bytearray] object
    is a [list byte]; an [int] is a [Z]; a [str] is a [string]; a [float] is
    a binary64 number of the kernel ([PrimFloat.float], round to nearest
    even, which is the arithmetic CPython uses).  A computation that can
    raise is a value of [result A]: [inl e] when the exception [e] is
    raised, [inr v] when [v] is returned. *)

From Stdlib Require Import ZArith NArith List Bool Lia.
From Stdlib Require Import Ascii String.
From Stdlib.Strings Require Import Byte.
From Stdlib Require Import Floats Uint63.
Import ListNotations.

Local Open Scope Z_scope.

(* ================================================================== *)
(** ** Exceptions and the error monad *)

(** The exception classes the program can meet.  [CancelledError] derives
    from [BaseException] only, so [except Exception] lets it through. *)
Inductive exn : Type :=
| IndexError (msg : string)
| ValueError (msg : string)
| UnicodeDecodeError
| BleakError (msg : string)
| CancelledError.

Definition is_Exception (e : exn) : bool :=
  match e with
  | CancelledError => false
  | _ => true
  end.

(** The exception of an indexing beyond the end of a string. *)
Definition index_error : exn := IndexError "string index out of range".

Definition result (A : Type) : Type := (exn + A)%type.

Definition ret {A} (a : A) : result A := inr a.
Definition raise {A} (e : exn) : result A := inl e.

Definition bind {A B} (m : result A) (k : A -> result B) : result B :=
  match m with
  | inl e => inl e
  | inr a => k a
  end.

Notation "x <- m ;; k" := (bind m (fun x => k))
  (at level 61, m at next level, right associativity).

(** [try: body except Exception as e: handler e]. *)
Definition try_except_Exception {A} (body : result A) (handler : exn -> result A)
  : result A :=
  match body with
  | inr a => inr a
  | inl e => if is_Exception e then handler e else inl e
  end.

(* ================================================================== *)
(** ** The Python built-ins the decoder uses *)

Module Py.

Definition bytes : Type := list byte.

Definition byte_val (b : byte) : Z := Z.of_N (Byte.to_N b).

(** Normalisation of one bound of a slice with step 1 over a sequence of
    length [len]: a negative bound counts from the end, and every bound is
    clamped into [0, len]. *)
Definition clamp_index (len i : Z) : Z :=
  if i <? 0 then Z.max (i + len) 0 else Z.min i len.

(** [l[start:stop]]; [None] is an omitted bound. *)
Definition slice {A} (l : list A) (start stop : option Z) : list A :=
  let len := Z.of_nat (List.length l) in
  let lo := match start with None => 0 | Some i => clamp_index len i end in
  let hi := match stop with None => len | Some i => clamp_index len i end in
  firstn (Z.to_nat (hi - lo)) (skipn (Z.to_nat lo) l).

(** The big-endian magnitude of a byte string; 0 for the empty one. *)
Definition unsigned_big (b : bytes) : Z :=
  fold_left (fun acc x => acc * 256 + byte_val x) b 0.

(** [int.from_bytes(b, "big", signed=signed)]. *)
Definition int_from_bytes (b : bytes) (signed : bool) : Z :=
  let u := unsigned_big b in
  match b with
  | [] => 0
  | _ :: _ =>
      let bits := 8 * Z.of_nat (List.length b) in
      if signed && (2 ^ (bits - 1) <=? u) then u - 2 ^ bits else u
  end.

Definition hex_digit (n : Z) : ascii :=
  match String.get (Z.to_nat n) "0123456789abcdef" with
  | Some c => c
  | None => "0"%char
  end.

Definition byte_hex (b : byte) : string :=
  String (hex_digit (byte_val b / 16))
    (String (hex_digit (byte_val b mod 16)) EmptyString).

(** [b.hex()]: two lower-case digits per byte. *)
Fixpoint hex (b : bytes) : string :=
  match b with
  | [] => EmptyString
  | x :: r => (byte_hex x ++ hex r)%string
  end.

(** [s[i]] on a string: a one-character string, or [IndexError]. *)
Definition str_getitem (s : string) (i : Z) : result string :=
  let len := Z.of_nat (String.length s) in
  let j := if i <? 0 then i + len else i in
  if (0 <=? j) && (j <? len) then
    match String.get (Z.to_nat j) s with
    | Some c => ret (String c EmptyString)
    | None => raise index_error
    end
  else raise index_error.

Definition digit16 (c : ascii) : option Z :=
  let n := Z.of_nat (nat_of_ascii c) in
  if (48 <=? n) && (n <=? 57) then Some (n - 48)
  else if (97 <=? n) && (n <=? 102) then Some (n - 87)
  else if (65 <=? n) && (n <=? 70) then Some (n - 55)
  else None.

Fixpoint digits16 (s : string) (acc : Z) : option Z :=
  match s with
  | EmptyString => Some acc
  | String c r =>
      match digit16 c with
      | Some d => digits16 r (acc * 16 + d)
      | None => None
      end
  end.

(** [int(s, 16)] on a string of hexadecimal digits.  CPython also accepts
    a sign, surrounding blanks, underscores and a [0x] prefix; the strings
    this program passes are cut out of the output of [hex], which has none
    of them, and the model raises [ValueError] on everything that is not a
    non-empty run of digits. *)
Definition int_base16 (s : string) : result Z :=
  match s with
  | EmptyString => raise (ValueError "invalid literal for int() with base 16")
  | _ =>
      match digits16 s 0 with
      | Some v => ret v
      | None => raise (ValueError "invalid literal for int() with base 16")
      end
  end.

(** [float(n)] for an [int]: exact below 2^53, which covers every integer
    of this program (all are below 2^17 in magnitude). *)
Definition float_of_int (z : Z) : float :=
  match z with
  | Z0 => PrimFloat.zero
  | Zpos _ => PrimFloat.of_uint63 (Uint63.of_Z z)
  | Zneg p => PrimFloat.opp (PrimFloat.of_uint63 (Uint63.of_Z (Zpos p)))
  end.

(** [a / b] on two [int]s: the correctly rounded quotient.  Both operands
    convert exactly, so it is the binary64 division of the conversions.
    The divisors of this program are non-zero constants. *)
Definition int_truediv (a b : Z) : float :=
  PrimFloat.div (float_of_int a) (float_of_int b).

End Py.

(* ================================================================== *)
(** ** Module constants *)

Definition BATTERY_LEVEL : Z := 33.
Definition MANUFACTURER_NAME : Z := 49.
Definition SOFTWARE_REVISION : Z := 51.
Definition INPUT : Z := 65.

Definition JOY_X_MIN : Z := 7980.
Definition JOY_X_MAX : Z := 49620.
Definition JOY_Y_MIN : Z := 13350.
Definition JOY_Y_MAX : Z := 50280.

(* ================================================================== *)
(** ** The log widget *)

(** One line of the log.  Each constructor stands for one of the message
    templates of the program and carries the values the template
    interpolates; the rendering of a number into its digits ([:3],
    [:5.2f], [:6.2f]) is not modelled, a line is identified by its
    template and its values. *)
Inductive log_line : Type :=
| Scanning
| NotFound
| Found (address : string)
| FailedToConnect
| Connected
| ErrorReading (e : exn)
| Manufacturer (name : string)
| BatteryLevel (percent : Z)
| SoftwareRev (rev : string)
| Listening
| Stopped
| InputLine (time : Z) (top_pressed joy_pressed : bool)
    (joyX joyY : float) (gyroX gyroY gyroZ : float)
    (accelX accelY accelZ : float)
| ErrorParsing (e : exn).

(** The part of the [PokeballApp] widget the two methods touch. *)
Record PokeballApp : Type := mkApp {
  log : list log_line;
  start_button_enabled : bool
}.

Definition log_message (self : PokeballApp) (text : log_line) : PokeballApp :=
  mkApp (log self ++ [text])%list (start_button_enabled self).

Definition setEnabled (self : PokeballApp) (b : bool) : PokeballApp :=
  mkApp (log self) b.

(* ================================================================== *)
(** ** [handle_input] *)

Module Decoder.
Import Py.

(** The local [toInt] of [handle_input]. *)
Definition toInt (b : bytes) : Z := int_from_bytes b true.

(** Lines 90-91: the hexadecimal text of [data[2:4]], its four characters
    taken in the order 3, 0, 2, 1.  The indexing is evaluated left to
    right, so a text shorter than four characters raises at index 3. *)
Definition joyX_swizzled (data : bytes) : result string :=
  let joyX_raw := hex (slice data (Some 2) (Some 4)) in
  c3 <- str_getitem joyX_raw 3 ;;
  c0 <- str_getitem joyX_raw 0 ;;
  c2 <- str_getitem joyX_raw 2 ;;
  c1 <- str_getitem joyX_raw 1 ;;
  ret (c3 ++ c0 ++ c2 ++ c1)%string.

(** The [int(joyX, 16)] of line 92: the raw joystick X reading. *)
Definition joyX_raw_value (data : bytes) : result Z :=
  joyX <- joyX_swizzled data ;;
  int_base16 joyX.

(** The [int.from_bytes(data[4:6], "big")] of line 96. *)
Definition joyY_raw_value (data : bytes) : Z :=
  int_from_bytes (slice data (Some 4) (Some 6)) false.

(** Lines 92-94. *)
Definition joyX_normalised (raw : Z) : float :=
  let joyX := raw - JOY_X_MIN in
  let joyX := int_truediv joyX (JOY_X_MAX - JOY_X_MIN) in
  PrimFloat.sub (PrimFloat.mul (float_of_int 2) joyX) (float_of_int 1).

(** Lines 97-99. *)
Definition joyY_normalised (raw : Z) : float :=
  let joyY := raw - JOY_Y_MIN in
  let joyY := int_truediv joyY (JOY_Y_MAX - JOY_Y_MIN) in
  PrimFloat.add (PrimFloat.mul (float_of_int (-2)) joyY) (float_of_int 1).

(** Everything the [try] block computes before it logs. *)
Record sample : Type := mkSample {
  time : Z;
  buttons : Z;
  top_pressed : bool;
  joy_pressed : bool;
  joyX : float;
  joyY : float;
  gyroX : float;
  gyroY : float;
  gyroZ : float;
  gyroW : float;
  accelX : float;
  accelY : float;
  accelZ : float
}.

(** Lines 84-108: the body of the [try] block up to the call of
    [log_message]. *)
Definition decode (data : bytes) : result sample :=
  let time := int_from_bytes (slice data (Some 0) (Some 1)) false in
  let buttons := int_from_bytes (slice data (Some 1) (Some 2)) false in
  let top_pressed := negb (Z.land buttons 1 =? 0) in
  let joy_pressed := negb (Z.land buttons 2 =? 0) in
  joyX_int <- joyX_raw_value data ;;
  let joyX := joyX_normalised joyX_int in
  let joyY := joyY_normalised (joyY_raw_value data) in
  let gyroX :=
    PrimFloat.div (float_of_int (toInt (slice data (Some 6) (Some 8)))) 5600 in
  let gyroY :=
    PrimFloat.div (float_of_int (toInt (slice data (Some 8) (Some 10)))) 5600 in
  let gyroZ :=
    PrimFloat.div (float_of_int (toInt (slice data (Some 10) (Some 12)))) 5600 in
  let gyroW :=
    PrimFloat.div (float_of_int (toInt (slice data (Some 12) (Some 14)))) 32767 in
  let accelX :=
    PrimFloat.div (float_of_int (toInt (slice data (Some (-1)) None))) 127 in
  let accelY :=
    PrimFloat.div (float_of_int (toInt (slice data (Some (-2)) (Some (-1))))) 127 in
  let accelZ :=
    PrimFloat.div (float_of_int (toInt (slice data (Some (-3)) (Some (-2))))) 127 in
  ret (mkSample time buttons top_pressed joy_pressed joyX joyY
         gyroX gyroY gyroZ gyroW accelX accelY accelZ).

(** The line of lines 110-115; [gyroW] is computed and not printed. *)
Definition sample_line (s : sample) : log_line :=
  InputLine (time s) (top_pressed s) (joy_pressed s) (joyX s) (joyY s)
    (gyroX s) (gyroY s) (gyroZ s) (accelX s) (accelY s) (accelZ s).

(** The line one report adds to the log: the formatted sample, or the
    report of the exception the [try] block raised. *)
Definition input_line (data : bytes) : log_line :=
  match decode data with
  | inr s => sample_line s
  | inl e => ErrorParsing e
  end.

(** [handle_input(self, sender, data)]: the widget after the call, or the
    exception that leaves the method. *)
Definition handle_input (self : PokeballApp) (sender : Z) (data : bytes)
  : result PokeballApp :=
  try_except_Exception
    (s <- decode data ;;
     ret (log_message self (sample_line s)))
    (fun e => ret (log_message self (ErrorParsing e))).

End Decoder.

(* ================================================================== *)
(** ** The specification's formulas *)

(** The normalisation formulas as the specification writes them, read as
    Python reads an expression: [2 * (raw - 7980)] is an [int], the
    division makes it a [float], the constant is added last. *)
Module Spec.
Import Py.

Definition joystickX (joystickXraw : Z) : float :=
  PrimFloat.sub
    (int_truediv (2 * (joystickXraw - 7980)) (49620 - 7980))
    (float_of_int 1).

Definition joystickY (joystickYraw : Z) : float :=
  PrimFloat.add
    (int_truediv (-2 * (joystickYraw - 13350)) (50280 - 13350))
    (float_of_int 1).

(** A byte read as a signed 8-bit integer. *)
Definition signed8 (b : byte) : Z :=
  if byte_val b <? 128 then byte_val b else byte_val b - 256.

(** The field a byte offset of the report belongs to, after the slices of
    [handle_input]: [0:1], [1:2], [2:4] and [4:6], [6:14]. *)
Inductive field : Type := Timestamp | Buttons | Joystick | Gyro | Beyond.

Definition field_at (i : Z) : field :=
  if i <? 0 then Beyond
  else if i <? 1 then Timestamp
  else if i <? 2 then Buttons
  else if i <? 6 then Joystick
  else if i <? 14 then Gyro
  else Beyond.

End Spec.

(* ================================================================== *)
(** ** [connect_to_device] *)

Definition DEVICE_NAME : string := "Pokemon PBP".

Module Session.
Import Py.

(** The calls the coroutine makes on the BLE library, in the order it makes
    them.  [ClientEnter] and [ClientExit] are the two ends of
    [async with BleakClient(device) as client]: the first connects, the
    second disconnects, and the second runs on every way out of the block. *)
Inductive ble_call : Type :=
| FindDeviceByName (name : string) (timeout : Z)
| ClientEnter (address : string)
| ReadGattChar (handle : Z)
| StartNotify (handle : Z)
| StopNotify (handle : Z)
| ClientExit.

(** The calls that read a characteristic. *)
Definition is_read (c : ble_call) : Prop := exists h, c = ReadGattChar h.

(** The three reads of the device information, in the order of lines
    59-61. *)
Definition all_reads : list ble_call :=
  [ReadGattChar MANUFACTURER_NAME; ReadGattChar SOFTWARE_REVISION;
   ReadGattChar BATTERY_LEVEL].

(** What the BLE library answers during one run of the coroutine. *)
Record Ble : Type := mkBle {
  (** the address of the device found by the scan, [None] on timeout *)
  find_device_by_name : result (option string);
  (** [client.is_connected] once the block is entered, or the exception
      raised on entering it *)
  client_enter : result bool;
  read_gatt_char : Z -> result bytes;
  start_notify : result unit;
  (** the input reports delivered to the callback while the coroutine
      sleeps in its loop *)
  notifications : list bytes;
  (** whether the sleep is ended by a cancellation *)
  cancelled : bool;
  stop_notify : result unit
}.

(** How a run ends: the coroutine returned, an exception left it, or it is
    still asleep in [while True] with the subscription active. *)
Inductive outcome : Type :=
| Returned
| Raised (e : exn)
| Waiting.

Record run : Type := mkRun {
  app : PokeballApp;
  calls : list ble_call;
  status : outcome
}.

(** The callback applied to the reports in arrival order.  An exception
    leaving the callback is reported as such. *)
Fixpoint deliver (self : PokeballApp) (reports : list bytes)
  : result PokeballApp :=
  match reports with
  | [] => ret self
  | data :: rest =>
      self' <- Decoder.handle_input self INPUT data ;;
      deliver self' rest
  end.

Section WithDecode.

(** [bytes.decode()]: the text of a UTF-8 byte string, [None] when the
    bytes are not valid UTF-8 and the call raises [UnicodeDecodeError]. *)
Variable utf8 : bytes -> option string.

Definition bytes_decode (b : bytes) : result string :=
  match utf8 b with
  | Some s => ret s
  | None => raise UnicodeDecodeError
  end.

(** Lines 59-61, the body of the [try]: the reads made, and the three
    values or the exception that interrupted them. *)
Definition read_device_info (ble : Ble)
  : list ble_call * result (string * string * Z) :=
  match read_gatt_char ble MANUFACTURER_NAME with
  | inl e => ([ReadGattChar MANUFACTURER_NAME], inl e)
  | inr m =>
    match bytes_decode m with
    | inl e => ([ReadGattChar MANUFACTURER_NAME], inl e)
    | inr manufacturer =>
      match read_gatt_char ble SOFTWARE_REVISION with
      | inl e =>
          ([ReadGattChar MANUFACTURER_NAME; ReadGattChar SOFTWARE_REVISION],
           inl e)
      | inr s =>
        match bytes_decode s with
        | inl e =>
            ([ReadGattChar MANUFACTURER_NAME; ReadGattChar SOFTWARE_REVISION],
             inl e)
        | inr software =>
          match read_gatt_char ble BATTERY_LEVEL with
          | inl e =>
              ([ReadGattChar MANUFACTURER_NAME; ReadGattChar SOFTWARE_REVISION;
                ReadGattChar BATTERY_LEVEL], inl e)
          | inr b =>
              ([ReadGattChar MANUFACTURER_NAME; ReadGattChar SOFTWARE_REVISION;
                ReadGattChar BATTERY_LEVEL],
               inr (manufacturer, software, int_from_bytes b false))
          end
        end
      end
    end
  end.

(** Lines 72-80: the log line, the sleep during which the reports arrive,
    and the handler of the cancellation. *)
Definition listen (ble : Ble) (self : PokeballApp) : run :=
  let self := log_message self Listening in
  match deliver self (notifications ble) with
  | inl e => mkRun self [] (Raised e)
  | inr self =>
      if cancelled ble then
        match stop_notify ble with
        | inl e => mkRun self [StopNotify INPUT] (Raised e)
        | inr _ =>
            let self := log_message self Stopped in
            let self := setEnabled self true in
            mkRun self [StopNotify INPUT] Returned
        end
      else mkRun self [] Waiting
  end.

(** Lines 53-80: the body of the [async with] block. *)
Definition client_block (ble : Ble) (self : PokeballApp) (is_connected : bool)
  : run :=
  if negb is_connected then
    let self := log_message self FailedToConnect in
    mkRun self [] Returned
  else
    let self := log_message self Connected in
    match read_device_info ble with
    | (reads, inl e) =>
        if is_Exception e then
          let self := log_message self (ErrorReading e) in
          let self := setEnabled self true in
          mkRun self reads Returned
        else mkRun self reads (Raised e)
    | (reads, inr (manufacturer, software, battery)) =>
        let self := log_message self (Manufacturer manufacturer) in
        let self := log_message self (BatteryLevel battery) in
        let self := log_message self (SoftwareRev software) in
        match start_notify ble with
        | inl e => mkRun self (reads ++ [StartNotify INPUT]) (Raised e)
        | inr _ =>
            let r := listen ble self in
            mkRun (app r) (reads ++ [StartNotify INPUT] ++ calls r) (status r)
        end
    end.

(** Leaving the [async with] block: the client disconnects, whether the
    block returned or raised; a block still asleep has not left.  Here
    the disconnection returns; [client_aexit] below is the exit whose
    disconnection may raise. *)
Definition client_exit (r : run) : run :=
  match status r with
  | Waiting => r
  | _ => mkRun (app r) (calls r ++ [ClientExit]) (status r)
  end.

(** [connect_to_device(self)]. *)
Definition connect_to_device (ble : Ble) (self : PokeballApp) : run :=
  let self := setEnabled self false in
  let self := log_message self Scanning in
  let scan := [FindDeviceByName DEVICE_NAME 30] in
  match find_device_by_name ble with
  | inl e => mkRun self scan (Raised e)
  | inr None =>
      let self := log_message self NotFound in
      let self := setEnabled self true in
      mkRun self scan Returned
  | inr (Some address) =>
      let self := log_message self (Found address) in
      match client_enter ble with
      | inl e => mkRun self (scan ++ [ClientEnter address]) (Raised e)
      | inr is_connected =>
          let r := client_exit (client_block ble self is_connected) in
          mkRun (app r) (scan ++ [ClientEnter address] ++ calls r) (status r)
      end
  end.

(** [BleakClient.__aexit__], awaited on leaving the [async with] block of
    line 52, when the disconnection may itself raise: [aexit] is what the
    await gives.  An exception raised there leaves the coroutine in place
    of what the block did, its return or its own exception, and after the
    block's effects on the window.  A block still asleep has not left. *)
Definition client_aexit (aexit : result unit) (r : run) : run :=
  match status r with
  | Waiting => r
  | _ =>
      match aexit with
      | inl e => mkRun (app r) (calls r ++ [ClientExit]) (Raised e)
      | inr _ => mkRun (app r) (calls r ++ [ClientExit]) (status r)
      end
  end.

(** [connect_to_device(self)] with the outcome [aexit] of the
    disconnection; [connect_to_device] above is the run in which the
    disconnection returns. *)
Definition connect_to_device_aexit (aexit : result unit) (ble : Ble)
  (self : PokeballApp) : run :=
  let self := setEnabled self false in
  let self := log_message self Scanning in
  let scan := [FindDeviceByName DEVICE_NAME 30] in
  match find_device_by_name ble with
  | inl e => mkRun self scan (Raised e)
  | inr None =>
      let self := log_message self NotFound in
      let self := setEnabled self true in
      mkRun self scan Returned
  | inr (Some address) =>
      let self := log_message self (Found address) in
      match client_enter ble with
      | inl e => mkRun self (scan ++ [ClientEnter address]) (Raised e)
      | inr is_connected =>
          let r := client_aexit aexit (client_block ble self is_connected) in
          mkRun (app r) (scan ++ [ClientEnter address] ++ calls r) (status r)
      end
  end.

End WithDecode.

(** Whether the run enters the [async with] block: the device was found
    and entering the block did not raise. *)
Definition block_entered (ble : Ble) : bool :=
  match find_device_by_name ble, client_enter ble with
  | inr (Some _), inr _ => true
  | _, _ => false
  end.

End Session.

(* ================================================================== *)
(** ** Some reports *)

Module Reports.
Import Py.

(** Joystick field [12 34], every other byte zero. *)
Definition report_1234 : bytes :=
  [x00; x00; x12; x34; x00; x00; x00; x00; x00; x00; x00; x00; x00; x00].


(** The calibration midpoint: the field [00 87] reads back as
    0x7080 = 28800 and the field [7c 47] is 31815. *)
Definition report_mid : bytes :=
  [x00; x00; x00; x87; x7c; x47; x00; x00; x00; x00; x00; x00; x00; x00].

(** A report that ends in [ff]. *)
Definition report_ff : bytes :=
  [x00; x00; x00; x00; x00; x00; x00; x00; x00; x00; x00; xff; xff; xff].

(** Three bytes, and four bytes whose buttons byte is [7f]. *)
Definition short3 : bytes := [x01; x02; x03].
Definition short4 : bytes := [x00; x7f; x00; x00].

End Reports.

(* ================================================================== *)
(** ** Some runs of the coroutine *)

Module Scenarios.
Import Py Session.

(** A decoder of one-byte texts, enough for the runs below. *)
Definition ascii_only (b : bytes) : option string :=
  if forallb (fun x => byte_val x <? 128) b
  then Some (string_of_list_ascii (map ascii_of_byte b))
  else None.

(** The device is found and connected, the software revision cannot be
    read. *)
Definition ble_read_fails : Ble :=
  mkBle (inr (Some "D0:0D"%string)) (inr true)
    (fun handle =>
       if handle =? SOFTWARE_REVISION then inl (BleakError "read failed")
       else inr [x41])
    (inr tt) [] false (inr tt).

(** The device is found and the client is not connected. *)
Definition ble_not_connected : Ble :=
  mkBle (inr (Some "D0:0D"%string)) (inr false)
    (fun _ => inr [x41]) (inr tt) [] false (inr tt).

Definition fresh_app : PokeballApp := mkApp [] true.

(** What a disconnection that fails raises. *)
Definition disconnect_failed : exn := BleakError "disconnect failed".

End Scenarios.

(* ================================================================== *)
(** ** Readings of the report's fields *)

Module Layout.
Import Py.

(** Two bytes read as a signed big-endian 16-bit integer. *)
Definition signed16 (a b : byte) : Z :=
  let u := 256 * byte_val a + byte_val b in
  if u <? 32768 then u else u - 65536.

(** A float lies in [-1, 1]. *)
Definition in_unit_range (x : float) : bool :=
  (PrimFloat.leb (-1)%float x && PrimFloat.leb x 1%float)%bool.

End Layout.

(** A run in which every call of the BLE library succeeds: three reports
    arrive, the second too short to decode, and the wait is cancelled. *)
Module FullRun.
Import Py Session.

Definition reports : list bytes :=
  [Reports.report_mid; Reports.short3; Reports.report_ff].


(** The scan itself raises. *)
Definition ble_scan_raises : Ble :=
  mkBle (inl (BleakError "adapter off")) (inr true)
    (fun _ => inr [x41]) (inr tt) [] false (inr tt).

End FullRun.

(* ================================================================== *)
(** ** Checking a property on a range of integers *)

(** [all_from n z p]: [p] holds on the [n] integers from [z] on. *)
Fixpoint all_from (n : nat) (z : Z) (p : Z -> bool) : bool :=
  match n with
  | O => true
  | S k => p z && all_from k (Z.succ z) p
  end.

(* ================================================================== *)
(** ** Facts about the built-ins *)

Module PyFacts.
Import Py.

Lemma all_from_spec (n : nat) (p : Z -> bool) :
  forall z, all_from n z p = true ->
  forall x, z <= x < z + Z.of_nat n -> p x = true.
Proof.
  induction n as [|k IH]; intros z H x Hx.
  - lia.
  - cbn [all_from] in H. apply andb_prop in H as [Hz Hk].
    destruct (Z.eq_dec x z) as [-> | Hne]; [exact Hz|].
    apply (IH (Z.succ z) Hk). lia.
Qed.

Lemma byte_val_range (b : byte) : 0 <= byte_val b < 256.
Proof.
  unfold byte_val. pose proof (Byte.to_N_bounded b) as H.
  split; [apply N2Z.is_nonneg|].
  apply N2Z.inj_le in H. simpl in H. lia.
Qed.

Lemma firstn_skipn_middle {A} (l1 m l2 : list A) :
  firstn (List.length m) (skipn (List.length l1) (l1 ++ m ++ l2)) = m.
Proof.
  rewrite skipn_app, skipn_all, Nat.sub_diag. simpl.
  rewrite firstn_app, firstn_all, Nat.sub_diag. simpl.
  apply app_nil_r.
Qed.

(** A slice whose normalised bounds frame the middle part of a list. *)
Lemma slice_middle {A} (l1 m l2 : list A) (start stop : option Z) :
  let len := Z.of_nat (List.length (l1 ++ m ++ l2)) in
  match start with None => 0 | Some i => clamp_index len i end
    = Z.of_nat (List.length l1) ->
  match stop with None => len | Some i => clamp_index len i end
    = Z.of_nat (List.length l1) + Z.of_nat (List.length m) ->
  slice (l1 ++ m ++ l2) start stop = m.
Proof.
  intros len Hlo Hhi. unfold slice. fold len. rewrite Hlo, Hhi.
  replace (Z.of_nat (List.length l1) + Z.of_nat (List.length m)
           - Z.of_nat (List.length l1)) with (Z.of_nat (List.length m)) by lia.
  rewrite !Nat2Z.id. apply firstn_skipn_middle.
Qed.

(** A slice that starts at or after the end is empty. *)
Lemma slice_beyond {A} (l : list A) (i j : Z) :
  Z.of_nat (List.length l) <= i -> slice l (Some i) (Some j) = [].
Proof.
  intros H. unfold slice, clamp_index.
  assert (Hi : (i <? 0) = false) by (apply Z.ltb_ge; lia).
  rewrite Hi. rewrite (Z.min_r i) by lia. rewrite Nat2Z.id.
  rewrite skipn_all. apply firstn_nil.
Qed.

Lemma int_from_bytes_nil (signed : bool) : int_from_bytes [] signed = 0.
Proof. reflexivity. Qed.

Lemma int_from_bytes_unsigned2 (a b : byte) :
  int_from_bytes [a; b] false = 256 * byte_val a + byte_val b.
Proof. unfold int_from_bytes, unsigned_big. cbn [fold_left andb]. lia. Qed.

Lemma int_from_bytes_signed1 (b : byte) :
  int_from_bytes [b] true = Spec.signed8 b.
Proof.
  unfold int_from_bytes, unsigned_big, Spec.signed8. cbn [fold_left].
  change (8 * Z.of_nat (List.length [b])) with 8.
  change (2 ^ (8 - 1)) with 128. change (2 ^ 8) with 256.
  rewrite andb_true_l.
  destruct (Z.leb_spec 128 (0 * 256 + byte_val b));
    destruct (Z.ltb_spec (byte_val b) 128); lia.
Qed.

Lemma hex_two (x y : byte) :
  hex [x; y] =
  String (hex_digit (byte_val x / 16))
    (String (hex_digit (byte_val x mod 16))
       (String (hex_digit (byte_val y / 16))
          (String (hex_digit (byte_val y mod 16)) EmptyString))).
Proof. reflexivity. Qed.

Lemma digit16_hex_digit (n : Z) :
  0 <= n < 16 -> digit16 (hex_digit n) = Some n.
Proof.
  intros H.
  assert (Hall : all_from 16 0
                   (fun k => match digit16 (hex_digit k) with
                             | Some v => v =? k
                             | None => false
                             end) = true) by reflexivity.
  assert (Hr : 0 <= n < 0 + Z.of_nat 16) by (cbn; lia).
  pose proof (all_from_spec _ _ 0 Hall n Hr) as Hk. cbv beta in Hk.
  destruct (digit16 (hex_digit n)) as [v|].
  - f_equal. apply Z.eqb_eq. exact Hk.
  - discriminate Hk.
Qed.

Lemma int_base16_four (a b c d : Z) :
  0 <= a < 16 -> 0 <= b < 16 -> 0 <= c < 16 -> 0 <= d < 16 ->
  int_base16
    (String (hex_digit a) (String (hex_digit b)
       (String (hex_digit c) (String (hex_digit d) EmptyString))))
  = inr (4096 * a + 256 * b + 16 * c + d).
Proof.
  intros Ha Hb Hc Hd. unfold int_base16. cbn [digits16].
  rewrite !digit16_hex_digit by assumption.
  unfold ret. f_equal. lia.
Qed.

Lemma nybbles_range (b : byte) :
  0 <= byte_val b / 16 < 16 /\ 0 <= byte_val b mod 16 < 16.
Proof.
  pose proof (byte_val_range b) as H. split.
  - split; [apply Z.div_pos; lia | apply Z.div_lt_upper_bound; lia].
  - apply Z.mod_pos_bound. lia.
Qed.

End PyFacts.

(* ================================================================== *)
(** ** Facts about the decoder *)

Module DecoderFacts.
Import Py PyFacts Decoder.

(** Closes the side conditions of [slice_middle] on a list of known shape. *)
Ltac slice_bounds :=
  cbv zeta; unfold clamp_index;
  rewrite ?length_app; cbn [List.length Nat.add];
  repeat match goal with
         | |- context [?a <? 0] =>
             first [ change (a <? 0) with true | change (a <? 0) with false ]
         end;
  cbv iota; lia.

Lemma slice_2_4 (a b c d : byte) (r : bytes) :
  slice (a :: b :: c :: d :: r) (Some 2) (Some 4) = [c; d].
Proof.
  change (a :: b :: c :: d :: r) with ([a; b] ++ [c; d] ++ r).
  apply slice_middle; slice_bounds.
Qed.

Lemma slice_4_6 (a b c d e f : byte) (r : bytes) :
  slice (a :: b :: c :: d :: e :: f :: r) (Some 4) (Some 6) = [e; f].
Proof.
  change (a :: b :: c :: d :: e :: f :: r) with ([a; b; c; d] ++ [e; f] ++ r).
  apply slice_middle; slice_bounds.
Qed.

Lemma slice_last (front : bytes) (z y x : byte) :
  slice (front ++ [z; y; x]) (Some (-1)) None = [x].
Proof.
  replace (front ++ [z; y; x]) with ((front ++ [z; y]) ++ [x] ++ [])
    by (rewrite <- app_assoc; reflexivity).
  apply slice_middle; slice_bounds.
Qed.

Lemma slice_last_but_one (front : bytes) (z y x : byte) :
  slice (front ++ [z; y; x]) (Some (-2)) (Some (-1)) = [y].
Proof.
  replace (front ++ [z; y; x]) with ((front ++ [z]) ++ [y] ++ [x])
    by (rewrite <- app_assoc; reflexivity).
  apply slice_middle; slice_bounds.
Qed.

Lemma slice_last_but_two (front : bytes) (z y x : byte) :
  slice (front ++ [z; y; x]) (Some (-3)) (Some (-2)) = [z].
Proof.
  change (front ++ [z; y; x]) with (front ++ [z] ++ [y; x]).
  apply slice_middle; slice_bounds.
Qed.

(** A list of at least three elements ends in three elements. *)
Lemma last_three {A} (l : list A) :
  (3 <= List.length l)%nat ->
  exists front z y x, l = front ++ [z; y; x].
Proof.
  intros H.
  rewrite <- (firstn_skipn (List.length l - 3) l).
  assert (Hs : List.length (skipn (List.length l - 3) l) = 3%nat)
    by (rewrite length_skipn; lia).
  destruct (skipn (List.length l - 3) l) as [|z [|y [|x [|w t]]]];
    try discriminate Hs.
  exists (firstn (List.length l - 3) l), z, y, x. reflexivity.
Qed.

(** The text built by lines 90-91 when the field has its two bytes. *)
Lemma joyX_swizzled_two (data : bytes) (c d : byte) :
  slice data (Some 2) (Some 4) = [c; d] ->
  joyX_swizzled data =
  inr (String (hex_digit (byte_val d mod 16))
         (String (hex_digit (byte_val c / 16))
            (String (hex_digit (byte_val d / 16))
               (String (hex_digit (byte_val c mod 16)) EmptyString)))).
Proof.
  intros H. unfold joyX_swizzled. rewrite H, hex_two. reflexivity.
Qed.

Lemma joyX_raw_value_two (data : bytes) (c d : byte) :
  slice data (Some 2) (Some 4) = [c; d] ->
  joyX_raw_value data =
  inr (4096 * (byte_val d mod 16) + 256 * (byte_val c / 16)
       + 16 * (byte_val d / 16) + byte_val c mod 16).
Proof.
  intros H. unfold joyX_raw_value. rewrite (joyX_swizzled_two _ _ _ H).
  cbn [bind].
  destruct (nybbles_range c), (nybbles_range d).
  apply int_base16_four; assumption.
Qed.

Lemma joyX_raw_value_range (c d : byte) :
  0 <= 4096 * (byte_val d mod 16) + 256 * (byte_val c / 16)
       + 16 * (byte_val d / 16) + byte_val c mod 16 < 65536.
Proof. destruct (nybbles_range c), (nybbles_range d). lia. Qed.

(** Fewer than four bytes: the text has at most two characters and the
    first indexing, at 3, raises. *)
Lemma joyX_swizzled_short (data : bytes) :
  (List.length data < 4)%nat ->
  joyX_swizzled data = inl (IndexError "string index out of range").
Proof.
  intros H.
  destruct data as [|a [|b [|c [|d r]]]];
    [reflexivity | reflexivity | reflexivity | reflexivity |].
  cbn [List.length] in H. lia.
Qed.

Lemma decode_short (data : bytes) :
  (List.length data < 4)%nat ->
  decode data = inl (IndexError "string index out of range").
Proof.
  intros H. unfold decode, joyX_raw_value.
  rewrite (joyX_swizzled_short _ H). reflexivity.
Qed.

(** Four bytes or more: the block reaches [log_message]. *)
Lemma decode_long (data : bytes) :
  (4 <= List.length data)%nat ->
  exists (c d : byte) (s : sample),
    slice data (Some 2) (Some 4) = [c; d] /\
    joyX_raw_value data =
      inr (4096 * (byte_val d mod 16) + 256 * (byte_val c / 16)
           + 16 * (byte_val d / 16) + byte_val c mod 16) /\
    decode data = inr s /\
    joyX s = joyX_normalised
               (4096 * (byte_val d mod 16) + 256 * (byte_val c / 16)
                + 16 * (byte_val d / 16) + byte_val c mod 16) /\
    joyY s = joyY_normalised (joyY_raw_value data) /\
    time s = int_from_bytes (slice data (Some 0) (Some 1)) false /\
    buttons s = int_from_bytes (slice data (Some 1) (Some 2)) false /\
    top_pressed s = negb (Z.land (buttons s) 1 =? 0) /\
    joy_pressed s = negb (Z.land (buttons s) 2 =? 0) /\
    gyroX s =
      PrimFloat.div (float_of_int (toInt (slice data (Some 6) (Some 8)))) 5600 /\
    gyroY s =
      PrimFloat.div (float_of_int (toInt (slice data (Some 8) (Some 10)))) 5600 /\
    gyroZ s =
      PrimFloat.div
        (float_of_int (toInt (slice data (Some 10) (Some 12)))) 5600 /\
    gyroW s =
      PrimFloat.div
        (float_of_int (toInt (slice data (Some 12) (Some 14)))) 32767 /\
    accelX s =
      PrimFloat.div (float_of_int (toInt (slice data (Some (-1)) None))) 127 /\
    accelY s =
      PrimFloat.div
        (float_of_int (toInt (slice data (Some (-2)) (Some (-1))))) 127 /\
    accelZ s =
      PrimFloat.div
        (float_of_int (toInt (slice data (Some (-3)) (Some (-2))))) 127.
Proof.
  intros H.
  destruct data as [|a [|b [|c [|d r]]]];
    try (cbn [List.length] in H; lia).
  pose proof (slice_2_4 a b c d r) as Hs.
  pose proof (joyX_raw_value_two _ _ _ Hs) as Hv.
  exists c, d. eexists. split; [exact Hs|]. split; [exact Hv|].
  unfold decode. rewrite Hv. cbn [bind]. unfold ret.
  split; [reflexivity|].
  cbn [joyX joyY time buttons top_pressed joy_pressed
       gyroX gyroY gyroZ gyroW accelX accelY accelZ].
  repeat split.
Qed.

End DecoderFacts.

(* ================================================================== *)
(** ** The normalisation in binary64 *)

Module FloatFacts.
Import Py PyFacts Decoder.

(** The code multiplies the quotient by two, the formula divides the
    doubled difference: the two roundings agree on every 16-bit reading. *)
Lemma joyX_check :
  all_from (Z.to_nat 65536) 0
    (fun raw => Leibniz.eqb (joyX_normalised raw) (Spec.joystickX raw)) = true.
Proof. vm_compute. reflexivity. Qed.

Lemma joyY_check :
  all_from (Z.to_nat 65536) 0
    (fun raw => Leibniz.eqb (joyY_normalised raw) (Spec.joystickY raw)) = true.
Proof. vm_compute. reflexivity. Qed.

Lemma joyX_normalised_spec (raw : Z) :
  0 <= raw < 65536 -> joyX_normalised raw = Spec.joystickX raw.
Proof.
  intros H. apply Leibniz.eqb_spec.
  apply (all_from_spec _ _ 0 joyX_check raw).
  rewrite Z2Nat.id by lia. lia.
Qed.

Lemma joyY_normalised_spec (raw : Z) :
  0 <= raw < 65536 -> joyY_normalised raw = Spec.joystickY raw.
Proof.
  intros H. apply Leibniz.eqb_spec.
  apply (all_from_spec _ _ 0 joyY_check raw).
  rewrite Z2Nat.id by lia. lia.
Qed.

Lemma joyX_midpoint : Spec.joystickX 28800 = 0%float.
Proof. vm_compute. reflexivity. Qed.

Lemma joyY_midpoint : Spec.joystickY 31815 = 0%float.
Proof. vm_compute. reflexivity. Qed.

End FloatFacts.

(* ================================================================== *)
(** ** The joystick axes *)

Module Joystick.
Import Py PyFacts Decoder DecoderFacts FloatFacts Reports.

(** C1.  For every 14-byte report, with [c] and [d] the bytes at offsets 2
    and 3 and n0, n1, n2, n3 the four nybbles of the field in the order the
    hexadecimal text shows them, the decoder builds the text n3 n0 n2 n1
    and reads it back as the integer 4096*n3 + 256*n0 + 16*n2 + n1, a
    16-bit unsigned value, from which the decoded joystick X is
    normalised. *)
Theorem joyX_nybble_permutation (data : bytes) :
  List.length data = 14%nat ->
  exists c d : byte,
    nth_error data 2 = Some c /\ nth_error data 3 = Some d /\
    slice data (Some 2) (Some 4) = [c; d] /\
    let n0 := byte_val c / 16 in
    let n1 := byte_val c mod 16 in
    let n2 := byte_val d / 16 in
    let n3 := byte_val d mod 16 in
    hex [c; d] =
      String (hex_digit n0) (String (hex_digit n1)
        (String (hex_digit n2) (String (hex_digit n3) EmptyString))) /\
    joyX_swizzled data =
      inr (String (hex_digit n3) (String (hex_digit n0)
             (String (hex_digit n2) (String (hex_digit n1) EmptyString)))) /\
    joyX_raw_value data = inr (4096 * n3 + 256 * n0 + 16 * n2 + n1) /\
    0 <= 4096 * n3 + 256 * n0 + 16 * n2 + n1 < 65536 /\
    exists s : sample,
      decode data = inr s /\
      joyX s = joyX_normalised (4096 * n3 + 256 * n0 + 16 * n2 + n1).
Proof.
  intros H.
  destruct data as [|a [|b [|c [|d r]]]]; try discriminate H.
  pose proof (slice_2_4 a b c d r) as Hs.
  exists c, d. cbv zeta.
  split; [reflexivity|]. split; [reflexivity|]. split; [exact Hs|].
  split; [apply hex_two|].
  split; [apply joyX_swizzled_two; exact Hs|].
  split; [apply joyX_raw_value_two; exact Hs|].
  split; [apply joyX_raw_value_range|].
  destruct (decode_long (a :: b :: c :: d :: r)) as (c' & d' & s & Hs' & _ & Hd & Hx & _).
  { cbn [List.length]. lia. }
  rewrite Hs in Hs'. injection Hs' as <- <-.
  exists s. split; assumption.
Qed.

Lemma joyX_nybble_permutation_witness :
  exists c d : byte,
    nth_error report_1234 2 = Some c /\ nth_error report_1234 3 = Some d /\
    slice report_1234 (Some 2) (Some 4) = [c; d] /\
    let n0 := byte_val c / 16 in
    let n1 := byte_val c mod 16 in
    let n2 := byte_val d / 16 in
    let n3 := byte_val d mod 16 in
    hex [c; d] =
      String (hex_digit n0) (String (hex_digit n1)
        (String (hex_digit n2) (String (hex_digit n3) EmptyString))) /\
    joyX_swizzled report_1234 =
      inr (String (hex_digit n3) (String (hex_digit n0)
             (String (hex_digit n2) (String (hex_digit n1) EmptyString)))) /\
    joyX_raw_value report_1234 = inr (4096 * n3 + 256 * n0 + 16 * n2 + n1) /\
    0 <= 4096 * n3 + 256 * n0 + 16 * n2 + n1 < 65536 /\
    exists s : sample,
      decode report_1234 = inr s /\
      joyX s = joyX_normalised (4096 * n3 + 256 * n0 + 16 * n2 + n1).
Proof. apply (joyX_nybble_permutation report_1234). reflexivity. Defined.

(** C2, as the specification states it, fails: on the field [12 34] the
    text is 4132, not 4123, and the integer 16690, not 16675. *)
Lemma joyX_1234_is_not_4123 :
  joyX_swizzled report_1234 = inr "4132"%string /\
  joyX_swizzled report_1234 <> inr "4123"%string /\
  joyX_raw_value report_1234 = inr 16690 /\
  joyX_raw_value report_1234 <> inr 16675.
Proof.
  split; [reflexivity|]. split; [discriminate|].
  split; [reflexivity|]. discriminate.
Qed.

(** C2, amended.  Whatever surrounds it, the joystick X field [12 34]
    gives the text 4132 (nybbles 3, 0, 2, 1 of 1234), which reads back as
    0x4132 = 16690. *)
Theorem joyX_1234_is_4132 (a b : byte) (rest : bytes) :
  hex (slice (a :: b :: x12 :: x34 :: rest) (Some 2) (Some 4)) = "1234"%string /\
  joyX_swizzled (a :: b :: x12 :: x34 :: rest) = inr "4132"%string /\
  joyX_raw_value (a :: b :: x12 :: x34 :: rest) = inr 0x4132 /\
  0x4132 = 16690.
Proof.
  pose proof (slice_2_4 a b x12 x34 rest) as Hs.
  split; [rewrite Hs; reflexivity|].
  split; [rewrite (joyX_swizzled_two _ _ _ Hs); reflexivity|].
  split; [rewrite (joyX_raw_value_two _ _ _ Hs); reflexivity|].
  reflexivity.
Qed.

End Joystick.

(* ================================================================== *)
(** ** Normalisation of the joystick *)

Module Normalisation.
Import Py PyFacts Decoder DecoderFacts FloatFacts Reports.

(** C5.  For every 14-byte report the decoded joystick X and Y are the
    values of the specification's two formulas, at the permuted 16-bit
    reading of bytes [2:4] and at the unsigned big-endian 16-bit reading
    of bytes [4:6]; the readings 28800 and 31815 give 0.0 and 0.0.  The
    reading of X is that of the bytes [c; d] at offsets 2 and 3: with
    their hex digits n0 n1 n2 n3 it is the number written n3 n0 n2 n1. *)
Theorem joystick_formulas (data : bytes) :
  List.length data = 14%nat ->
  exists (joystickXraw joystickYraw : Z) (c d e f : byte) (s : sample),
    slice data (Some 2) (Some 4) = [c; d] /\
    nth_error data 2 = Some c /\ nth_error data 3 = Some d /\
    joystickXraw
    = 4096 * (byte_val d mod 16) + 256 * (byte_val c / 16)
      + 16 * (byte_val d / 16) + byte_val c mod 16 /\
    joyX_raw_value data = inr joystickXraw /\
    0 <= joystickXraw < 65536 /\
    slice data (Some 4) (Some 6) = [e; f] /\
    nth_error data 4 = Some e /\ nth_error data 5 = Some f /\
    joystickYraw = 256 * byte_val e + byte_val f /\
    joyY_raw_value data = joystickYraw /\
    decode data = inr s /\
    joyX s = Spec.joystickX joystickXraw /\
    joyY s = Spec.joystickY joystickYraw /\
    (joystickXraw = 28800 -> joyX s = 0%float) /\
    (joystickYraw = 31815 -> joyY s = 0%float).
Proof.
  intros H.
  destruct (decode_long data) as (c & d & s & Hs & Hv & Hd & Hx & Hy & _);
    [lia|].
  destruct data as [|b0 [|b1 [|b2 [|b3 [|e [|f r]]]]]]; try discriminate H.
  pose proof (slice_2_4 b0 b1 b2 b3 (e :: f :: r)) as H24.
  rewrite H24 in Hs. injection Hs as <- <-.
  pose proof (slice_4_6 b0 b1 b2 b3 e f r) as H46.
  pose proof (joyX_raw_value_range b2 b3) as Hxr.
  pose proof (byte_val_range e) as He. pose proof (byte_val_range f) as Hf.
  assert (HY : joyY_raw_value (b0 :: b1 :: b2 :: b3 :: e :: f :: r)
               = 256 * byte_val e + byte_val f).
  { unfold joyY_raw_value. rewrite H46. apply int_from_bytes_unsigned2. }
  exists (4096 * (byte_val b3 mod 16) + 256 * (byte_val b2 / 16)
          + 16 * (byte_val b3 / 16) + byte_val b2 mod 16),
    (256 * byte_val e + byte_val f), b2, b3, e, f, s.
  split; [exact H24|]. split; [reflexivity|]. split; [reflexivity|].
  split; [reflexivity|].
  split; [exact Hv|]. split; [exact Hxr|]. split; [exact H46|].
  split; [reflexivity|]. split; [reflexivity|].
  split; [reflexivity|]. split; [exact HY|]. split; [exact Hd|].
  assert (HX' : joyX s = Spec.joystickX
                  (4096 * (byte_val b3 mod 16) + 256 * (byte_val b2 / 16)
                   + 16 * (byte_val b3 / 16) + byte_val b2 mod 16)).
  { rewrite Hx. apply joyX_normalised_spec. exact Hxr. }
  assert (HY' : joyY s = Spec.joystickY (256 * byte_val e + byte_val f)).
  { rewrite Hy, HY. apply joyY_normalised_spec. lia. }
  split; [exact HX'|]. split; [exact HY'|]. split.
  - intros E. rewrite HX', E. apply joyX_midpoint.
  - intros E. rewrite HY', E. apply joyY_midpoint.
Qed.

Lemma joystick_formulas_witness :
  List.length report_mid = 14%nat /\
  exists (joystickXraw joystickYraw : Z) (c d e f : byte) (s : sample),
    slice report_mid (Some 2) (Some 4) = [c; d] /\
    nth_error report_mid 2 = Some c /\ nth_error report_mid 3 = Some d /\
    joystickXraw
    = 4096 * (byte_val d mod 16) + 256 * (byte_val c / 16)
      + 16 * (byte_val d / 16) + byte_val c mod 16 /\
    joyX_raw_value report_mid = inr joystickXraw /\
    0 <= joystickXraw < 65536 /\
    slice report_mid (Some 4) (Some 6) = [e; f] /\
    nth_error report_mid 4 = Some e /\ nth_error report_mid 5 = Some f /\
    joystickYraw = 256 * byte_val e + byte_val f /\
    joyY_raw_value report_mid = joystickYraw /\
    decode report_mid = inr s /\
    joyX s = Spec.joystickX joystickXraw /\
    joyY s = Spec.joystickY joystickYraw /\
    (joystickXraw = 28800 -> joyX s = 0%float) /\
    (joystickYraw = 31815 -> joyY s = 0%float).
Proof.
  split; [reflexivity|]. apply (joystick_formulas report_mid). reflexivity.
Defined.


End Normalisation.

(* ================================================================== *)
(** ** The accelerometer bytes *)

Module Accel.
Import Py PyFacts Decoder DecoderFacts Reports.

Lemma accel_of_last_three (front : bytes) (z y x : byte) (s : sample) :
  decode (front ++ [z; y; x]) = inr s ->
  (4 <= List.length (front ++ [z; y; x]))%nat ->
  accelX s = PrimFloat.div (float_of_int (Spec.signed8 x)) 127 /\
  accelY s = PrimFloat.div (float_of_int (Spec.signed8 y)) 127 /\
  accelZ s = PrimFloat.div (float_of_int (Spec.signed8 z)) 127.
Proof.
  intros Hd Hlen.
  destruct (decode_long _ Hlen)
    as (c & d & s' & _ & _ & Hd' & _ & _ & _ & _ & _ & _ & _ & _ & _ & _
        & Hx & Hy & Hz).
  rewrite Hd in Hd'. injection Hd' as <-.
  rewrite Hx, Hy, Hz.
  rewrite slice_last, slice_last_but_one, slice_last_but_two.
  unfold toInt. rewrite !int_from_bytes_signed1. repeat split.
Qed.

Lemma accel_ff (v : float) :
  v = PrimFloat.div (float_of_int (Spec.signed8 xff)) 127 ->
  v = PrimFloat.div (float_of_int (-1)) 127 /\
  PrimFloat.ltb v 0 = true /\
  v <> PrimFloat.div (float_of_int 255) 127.
Proof.
  intros ->. split; [reflexivity|]. split; [vm_compute; reflexivity|].
  intros E.
  apply (f_equal (fun u => PrimFloat.ltb u 0)) in E.
  vm_compute in E. discriminate E.
Qed.

(** C9.  In every report the decoder accepts, the last, second-to-last and
    third-to-last bytes, each read as a signed 8-bit integer and divided
    by 127.0, are the X, Y and Z accelerations; a byte [ff] gives
    -1/127.0, a negative number, and not 255/127.0. *)
Theorem accel_bytes_are_signed (data : bytes) :
  (4 <= List.length data)%nat ->
  exists (front : bytes) (z y x : byte) (s : sample),
    data = (front ++ [z; y; x])%list /\
    decode data = inr s /\
    accelX s = PrimFloat.div (float_of_int (Spec.signed8 x)) 127 /\
    accelY s = PrimFloat.div (float_of_int (Spec.signed8 y)) 127 /\
    accelZ s = PrimFloat.div (float_of_int (Spec.signed8 z)) 127 /\
    (x = xff ->
       accelX s = PrimFloat.div (float_of_int (-1)) 127 /\
       PrimFloat.ltb (accelX s) 0 = true /\
       accelX s <> PrimFloat.div (float_of_int 255) 127) /\
    (y = xff ->
       accelY s = PrimFloat.div (float_of_int (-1)) 127 /\
       PrimFloat.ltb (accelY s) 0 = true /\
       accelY s <> PrimFloat.div (float_of_int 255) 127) /\
    (z = xff ->
       accelZ s = PrimFloat.div (float_of_int (-1)) 127 /\
       PrimFloat.ltb (accelZ s) 0 = true /\
       accelZ s <> PrimFloat.div (float_of_int 255) 127).
Proof.
  intros Hlen.
  destruct (last_three data) as (front & z & y & x & ->); [lia|].
  destruct (decode_long _ Hlen) as (c & d & s & _ & _ & Hd & _).
  destruct (accel_of_last_three _ _ _ _ _ Hd Hlen) as (Hx & Hy & Hz).
  exists front, z, y, x, s.
  split; [reflexivity|]. split; [exact Hd|].
  split; [exact Hx|]. split; [exact Hy|]. split; [exact Hz|].
  split; [|split]; intros ->; apply accel_ff; assumption.
Qed.

Lemma accel_bytes_are_signed_witness :
  (4 <= List.length report_ff)%nat /\
  exists (front : bytes) (z y x : byte) (s : sample),
    report_ff = (front ++ [z; y; x])%list /\
    decode report_ff = inr s /\
    accelX s = PrimFloat.div (float_of_int (Spec.signed8 x)) 127 /\
    accelY s = PrimFloat.div (float_of_int (Spec.signed8 y)) 127 /\
    accelZ s = PrimFloat.div (float_of_int (Spec.signed8 z)) 127 /\
    (x = xff ->
       accelX s = PrimFloat.div (float_of_int (-1)) 127 /\
       PrimFloat.ltb (accelX s) 0 = true /\
       accelX s <> PrimFloat.div (float_of_int 255) 127) /\
    (y = xff ->
       accelY s = PrimFloat.div (float_of_int (-1)) 127 /\
       PrimFloat.ltb (accelY s) 0 = true /\
       accelY s <> PrimFloat.div (float_of_int 255) 127) /\
    (z = xff ->
       accelZ s = PrimFloat.div (float_of_int (-1)) 127 /\
       PrimFloat.ltb (accelZ s) 0 = true /\
       accelZ s <> PrimFloat.div (float_of_int 255) 127).
Proof.
  split; [vm_compute; lia|].
  apply (accel_bytes_are_signed report_ff). vm_compute. lia.
Defined.

End Accel.

(* ================================================================== *)
(** ** Short reports and the error branch *)

Module Errors.
Import Py PyFacts Decoder DecoderFacts Reports.

Lemma handle_input_short (self : PokeballApp) (sender : Z) (data : bytes) :
  (List.length data < 4)%nat ->
  handle_input self sender data
  = inr (log_message self (ErrorParsing index_error)).
Proof.
  intros H. unfold handle_input. rewrite (decode_short _ H). reflexivity.
Qed.

Lemma handle_input_long (self : PokeballApp) (sender : Z) (data : bytes) :
  (4 <= List.length data)%nat ->
  exists s : sample,
    decode data = inr s /\
    handle_input self sender data = inr (log_message self (sample_line s)).
Proof.
  intros H. destruct (decode_long _ H) as (c & d & s & _ & _ & Hd & _).
  exists s. split; [exact Hd|].
  unfold handle_input. rewrite Hd. reflexivity.
Qed.

(** Whatever the report, the call returns and adds [input_line data]. *)
Lemma handle_input_line (self : PokeballApp) (sender : Z) (data : bytes) :
  handle_input self sender data = inr (log_message self (input_line data)).
Proof.
  unfold input_line.
  destruct (Nat.lt_ge_cases (List.length data) 4) as [H | H].
  - rewrite (handle_input_short _ _ _ H), (decode_short _ H). reflexivity.
  - destruct (handle_input_long self sender _ H) as (s & Hd & Hh).
    rewrite Hh, Hd. reflexivity.
Qed.

Lemma log_message_inj (self : PokeballApp) (l1 l2 : log_line) :
  log_message self l1 = log_message self l2 -> l1 = l2.
Proof.
  unfold log_message. intros H. injection H as H.
  apply app_inj_tail in H. apply H.
Qed.

(** C3, as the specification states it, fails: a report of four bytes is
    shorter than fourteen and is decoded into a formatted line. *)
Lemma four_bytes_are_decoded :
  (List.length short4 < 14)%nat /\
  exists s : sample,
    decode short4 = inr s /\
    handle_input (mkApp [] false) INPUT short4
    = inr (mkApp [sample_line s] false).
Proof.
  split; [vm_compute; lia|].
  eexists. split; vm_compute; reflexivity.
Qed.

(** C3, amended.  A report shorter than four bytes makes the decoding
    raise [IndexError]; [handle_input] turns it into the one error line,
    which is no formatted sample line. *)
Theorem short_report_is_an_error
  (self : PokeballApp) (sender : Z) (data : bytes) :
  (List.length data < 4)%nat ->
  decode data = inl index_error /\
  handle_input self sender data
  = inr (log_message self (ErrorParsing index_error)) /\
  log (log_message self (ErrorParsing index_error))
  = (log self ++ [ErrorParsing index_error])%list /\
  forall s : sample, sample_line s <> ErrorParsing index_error.
Proof.
  intros H. split; [apply decode_short; exact H|].
  split; [apply handle_input_short; exact H|].
  split; [reflexivity|]. intros s. discriminate.
Qed.

Lemma short_report_is_an_error_witness :
  (List.length short3 < 4)%nat /\
  decode short3 = inl index_error /\
  handle_input (mkApp [] false) INPUT short3
  = inr (log_message (mkApp [] false) (ErrorParsing index_error)) /\
  log (log_message (mkApp [] false) (ErrorParsing index_error))
  = ([] ++ [ErrorParsing index_error])%list /\
  forall s : sample, sample_line s <> ErrorParsing index_error.
Proof.
  split; [vm_compute; lia|].
  apply (short_report_is_an_error (mkApp [] false) INPUT short3).
  vm_compute. lia.
Defined.

(** C10, as stated, fails at length four: the third-to-last byte of a
    four-byte report is the buttons byte, at offset 1, neither a joystick
    nor a gyroscope byte. *)
Lemma four_bytes_accel_reads_buttons :
  (4 <= List.length short4 <= 13)%nat /\
  slice short4 (Some (-3)) (Some (-2)) = slice short4 (Some 1) (Some 2) /\
  Spec.field_at (Z.of_nat (List.length short4) - 3) = Spec.Buttons /\
  exists s : sample,
    decode short4 = inr s /\
    buttons s = 127 /\
    accelZ s = PrimFloat.div (float_of_int (buttons s)) 127 /\
    accelZ s = 1%float.
Proof.
  split; [vm_compute; lia|].
  split; [reflexivity|]. split; [reflexivity|].
  eexists. split; [vm_compute; reflexivity|].
  cbn [buttons accelZ]. repeat split; vm_compute; reflexivity.
Qed.

(** C10, amended.  [handle_input] adds the error line exactly when the
    report has fewer than four bytes.  On a report of 4 to 13 bytes it
    adds a formatted line; a two-byte slice that starts at or after the
    end reads as 0; the accelerations are read from the last three bytes
    present, which are joystick or gyroscope bytes when the report has 5
    to 13 bytes, while at length 4 the third-to-last is the buttons
    byte. *)
Theorem error_branch_iff_shorter_than_four
  (self : PokeballApp) (sender : Z) (data : bytes) :
  ((exists e, handle_input self sender data
              = inr (log_message self (ErrorParsing e)))
   <-> (List.length data < 4)%nat) /\
  ((4 <= List.length data <= 13)%nat ->
   exists (front : bytes) (z y x : byte) (s : sample),
     data = (front ++ [z; y; x])%list /\
     decode data = inr s /\
     handle_input self sender data = inr (log_message self (sample_line s)) /\
     (forall (i : Z) (signed : bool),
        Z.of_nat (List.length data) <= i ->
        int_from_bytes (slice data (Some i) (Some (i + 2))) signed = 0) /\
     ((List.length data <= 4)%nat -> joyY_raw_value data = 0) /\
     ((List.length data <= 6)%nat -> gyroX s = 0%float) /\
     ((List.length data <= 8)%nat -> gyroY s = 0%float) /\
     ((List.length data <= 10)%nat -> gyroZ s = 0%float) /\
     ((List.length data <= 12)%nat -> gyroW s = 0%float) /\
     accelX s = PrimFloat.div (float_of_int (Spec.signed8 x)) 127 /\
     accelY s = PrimFloat.div (float_of_int (Spec.signed8 y)) 127 /\
     accelZ s = PrimFloat.div (float_of_int (Spec.signed8 z)) 127 /\
     let len := Z.of_nat (List.length data) in
     let joystick_or_gyro (i : Z) :=
       Spec.field_at i = Spec.Joystick \/ Spec.field_at i = Spec.Gyro in
     joystick_or_gyro (len - 1) /\
     joystick_or_gyro (len - 2) /\
     (5 <= len -> joystick_or_gyro (len - 3)) /\
     (len = 4 -> Spec.field_at (len - 3) = Spec.Buttons)).
Proof.
  split.
  - split.
    + intros (e & He).
      destruct (Nat.lt_ge_cases (List.length data) 4) as [H | H]; [exact H|].
      destruct (handle_input_long self sender _ H) as (s & _ & Hh).
      rewrite Hh in He. apply (f_equal (fun r => match r with
                                                  | inr a => a
                                                  | inl _ => self
                                                  end)) in He.
      apply log_message_inj in He. discriminate He.
    + intros H. exists index_error. apply handle_input_short. exact H.
  - intros [Hlo Hhi].
    destruct (last_three data) as (front & z & y & x & E); [lia|].
    destruct (decode_long _ Hlo)
      as (c & d & s & _ & _ & Hd & _ & _ & _ & _ & _ & _
          & HgX & HgY & HgZ & HgW & _).
    destruct (handle_input_long self sender _ Hlo) as (s' & Hd' & Hh).
    rewrite Hd in Hd'. injection Hd' as <-.
    assert (Hacc : decode (front ++ [z; y; x]) = inr s) by (rewrite <- E; exact Hd).
    assert (Hlen' : (4 <= List.length (front ++ [z; y; x]))%nat)
      by (rewrite <- E; exact Hlo).
    destruct (Accel.accel_of_last_three _ _ _ _ _ Hacc Hlen') as (Hx & Hy & Hz).
    assert (Hzero : forall (i : Z) (signed : bool),
               Z.of_nat (List.length data) <= i ->
               int_from_bytes (slice data (Some i) (Some (i + 2))) signed = 0).
    { intros i sg Hi. rewrite slice_beyond by exact Hi.
      apply int_from_bytes_nil. }
    exists front, z, y, x, s.
    split; [exact E|]. split; [exact Hd|]. split; [exact Hh|].
    split; [exact Hzero|].
    split; [intros H; unfold joyY_raw_value; apply (Hzero 4); lia|].
    split; [intros H; rewrite HgX; unfold toInt;
            rewrite (Hzero 6) by lia; reflexivity|].
    split; [intros H; rewrite HgY; unfold toInt;
            rewrite (Hzero 8) by lia; reflexivity|].
    split; [intros H; rewrite HgZ; unfold toInt;
            rewrite (Hzero 10) by lia; reflexivity|].
    split; [intros H; rewrite HgW; unfold toInt;
            rewrite (Hzero 12) by lia; reflexivity|].
    split; [exact Hx|]. split; [exact Hy|]. split; [exact Hz|].
    cbv zeta.
    assert (Hlen : 4 <= Z.of_nat (List.length data) <= 13) by lia.
    generalize dependent (Z.of_nat (List.length data)). intros len _ Hlen.
    unfold Spec.field_at.
    repeat match goal with
           | |- context [?a <? ?b] => destruct (Z.ltb_spec a b)
           end;
      repeat split; intros;
      first [ lia | reflexivity | left; reflexivity | right; reflexivity ].
Qed.

End Errors.

(* ================================================================== *)
(** ** The notification callback inside the session *)

Module Notifications.
Import Py PyFacts Decoder DecoderFacts Errors Session.

Lemma deliver_all (reports : list bytes) :
  forall self : PokeballApp,
    deliver self reports
    = inr (mkApp (log self ++ map input_line reports)
             (start_button_enabled self)).
Proof.
  induction reports as [|data rest IH]; intros self.
  - cbn [deliver map]. rewrite app_nil_r. destruct self; reflexivity.
  - cbn [deliver map]. rewrite handle_input_line. cbn [bind].
    rewrite IH. unfold log_message. cbn [log start_button_enabled].
    rewrite <- app_assoc. reflexivity.
Qed.

(** C6.  On every report [handle_input] returns, never raises, and adds
    exactly one line to the log: the formatted sample when the decoding
    succeeds, the error line when it raises.  Hence the reports of a
    session are all handled, in order, one line each, also those that
    follow a report too short to decode; and the listening ends only by
    cancellation, never because of a report. *)
Theorem handle_input_never_raises
  (self : PokeballApp) (sender : Z) (data : bytes) :
  (exists line : log_line,
     handle_input self sender data = inr (log_message self line) /\
     log (log_message self line) = (log self ++ [line])%list /\
     start_button_enabled (log_message self line) = start_button_enabled self /\
     ((exists s, decode data = inr s /\ line = sample_line s) \/
      (exists e, decode data = inl e /\ line = ErrorParsing e))) /\
  (forall reports : list bytes,
     deliver self reports
     = inr (mkApp (log self ++ map input_line reports)
              (start_button_enabled self))) /\
  (forall (before after : list bytes) (bad : bytes),
     (List.length bad < 4)%nat ->
     deliver self (before ++ bad :: after)
     = inr (mkApp (log self ++ map input_line before
                    ++ ErrorParsing index_error :: map input_line after)
              (start_button_enabled self))) /\
  (forall ble : Ble,
     exists tail : list log_line,
       log (app (listen ble self))
       = (log self ++ Listening :: map input_line (notifications ble)
            ++ tail)%list /\
       (cancelled ble = false ->
        status (listen ble self) = Waiting /\ tail = [] /\
        calls (listen ble self) = []) /\
       (forall e, status (listen ble self) = Raised e ->
                  cancelled ble = true /\ stop_notify ble = inl e)).
Proof.
  split; [|split; [|split]].
  - exists (input_line data).
    split; [apply handle_input_line|]. split; [reflexivity|].
    split; [reflexivity|].
    unfold input_line. destruct (decode data) as [e | s].
    + right. exists e. split; reflexivity.
    + left. exists s. split; reflexivity.
  - intros reports. apply deliver_all.
  - intros before after bad Hbad. rewrite deliver_all.
    rewrite map_app. cbn [map].
    unfold input_line at 2. rewrite (decode_short _ Hbad). reflexivity.
  - intros ble. unfold listen. rewrite deliver_all.
    cbn [log log_message start_button_enabled].
    destruct (cancelled ble) eqn:Hc.
    + destruct (stop_notify ble) as [e | u] eqn:Hs.
      * exists []. cbn [app log status calls]. rewrite app_nil_r, <- app_assoc.
        split; [reflexivity|]. split; [discriminate|].
        intros e' He. injection He as <-. split; reflexivity.
      * exists [Stopped].
        cbn [app log status calls setEnabled log_message].
        rewrite <- !app_assoc.
        split; [reflexivity|]. split; [discriminate|]. discriminate.
    + exists []. cbn [app log status calls]. rewrite app_nil_r, <- app_assoc.
      split; [reflexivity|]. split; [repeat split|]. discriminate.
Qed.

End Notifications.

(* ================================================================== *)
(** ** Failures of the session *)

Module SessionFacts.
Import Py Session Scenarios.

Section WithDecode.

Variable utf8 : bytes -> option string.

Lemma read_device_info_reads (ble : Ble) :
  Forall is_read (fst (read_device_info utf8 ble)).
Proof.
  unfold read_device_info, bytes_decode.
  destruct (read_gatt_char ble MANUFACTURER_NAME) as [e1 | m]; cbn [fst].
  { repeat constructor; eexists; reflexivity. }
  destruct (utf8 m); cbn [fst];
    [|repeat constructor; eexists; reflexivity].
  destruct (read_gatt_char ble SOFTWARE_REVISION) as [e2 | sw]; cbn [fst].
  { repeat constructor; eexists; reflexivity. }
  destruct (utf8 sw); cbn [fst];
    [|repeat constructor; eexists; reflexivity].
  destruct (read_gatt_char ble BATTERY_LEVEL) as [e3 | b]; cbn [fst];
    repeat constructor; eexists; reflexivity.
Qed.

(** When one of the three reads raises, the [try] block raises, and what
    it raises is caught by [except Exception]. *)
Lemma read_device_info_fails (ble : Ble) :
  (forall h e, read_gatt_char ble h = inl e -> is_Exception e = true) ->
  (exists e, read_gatt_char ble MANUFACTURER_NAME = inl e
             \/ read_gatt_char ble SOFTWARE_REVISION = inl e
             \/ read_gatt_char ble BATTERY_LEVEL = inl e) ->
  exists e, snd (read_device_info utf8 ble) = inl e /\ is_Exception e = true.
Proof.
  intros Hexc (e0 & Hfail). unfold read_device_info, bytes_decode.
  destruct (read_gatt_char ble MANUFACTURER_NAME) as [e1 | m] eqn:H1.
  { exists e1. split; [reflexivity | exact (Hexc _ _ H1)]. }
  destruct (utf8 m); [|exists UnicodeDecodeError; split; reflexivity].
  destruct (read_gatt_char ble SOFTWARE_REVISION) as [e2 | sw] eqn:H2.
  { exists e2. split; [reflexivity | exact (Hexc _ _ H2)]. }
  destruct (utf8 sw); [|exists UnicodeDecodeError; split; reflexivity].
  destruct (read_gatt_char ble BATTERY_LEVEL) as [e3 | b] eqn:H3.
  { exists e3. split; [reflexivity | exact (Hexc _ _ H3)]. }
  destruct Hfail as [H | [H | H]]; discriminate H.
Qed.

(** The reads of lines 59-61, case by case. *)
Lemma read_device_info_cases (ble : Ble) :
  (exists e,
     read_gatt_char ble MANUFACTURER_NAME = inl e /\
     read_device_info utf8 ble = ([ReadGattChar MANUFACTURER_NAME], inl e))
  \/ (exists m,
        read_gatt_char ble MANUFACTURER_NAME = inr m /\ utf8 m = None /\
        read_device_info utf8 ble
        = ([ReadGattChar MANUFACTURER_NAME], inl UnicodeDecodeError))
  \/ (exists m name e,
        read_gatt_char ble MANUFACTURER_NAME = inr m /\ utf8 m = Some name /\
        read_gatt_char ble SOFTWARE_REVISION = inl e /\
        read_device_info utf8 ble
        = ([ReadGattChar MANUFACTURER_NAME; ReadGattChar SOFTWARE_REVISION],
           inl e))
  \/ (exists m name sw,
        read_gatt_char ble MANUFACTURER_NAME = inr m /\ utf8 m = Some name /\
        read_gatt_char ble SOFTWARE_REVISION = inr sw /\ utf8 sw = None /\
        read_device_info utf8 ble
        = ([ReadGattChar MANUFACTURER_NAME; ReadGattChar SOFTWARE_REVISION],
           inl UnicodeDecodeError))
  \/ (exists m name sw rev e,
        read_gatt_char ble MANUFACTURER_NAME = inr m /\ utf8 m = Some name /\
        read_gatt_char ble SOFTWARE_REVISION = inr sw /\ utf8 sw = Some rev /\
        read_gatt_char ble BATTERY_LEVEL = inl e /\
        read_device_info utf8 ble = (all_reads, inl e))
  \/ (exists m name sw rev b,
        read_gatt_char ble MANUFACTURER_NAME = inr m /\ utf8 m = Some name /\
        read_gatt_char ble SOFTWARE_REVISION = inr sw /\ utf8 sw = Some rev /\
        read_gatt_char ble BATTERY_LEVEL = inr b /\
        read_device_info utf8 ble
        = (all_reads, inr (name, rev, int_from_bytes b false))).
Proof.
  unfold read_device_info, bytes_decode.
  destruct (read_gatt_char ble MANUFACTURER_NAME) as [e1 | m].
  { left. exists e1. split; reflexivity. }
  destruct (utf8 m) as [name|] eqn:Hm.
  2: { right; left. exists m. repeat split; assumption. }
  destruct (read_gatt_char ble SOFTWARE_REVISION) as [e2 | sw].
  { right; right; left. exists m, name, e2. repeat split; assumption. }
  destruct (utf8 sw) as [rev|] eqn:Hsw.
  2: { right; right; right; left. exists m, name, sw. repeat split; assumption. }
  destruct (read_gatt_char ble BATTERY_LEVEL) as [e3 | b].
  { right; right; right; right; left.
    exists m, name, sw, rev, e3. repeat split; assumption. }
  right; right; right; right; right.
  exists m, name, sw, rev, b. repeat split; assumption.
Qed.


(** C4.  On a device that is found and a client that is not connected the
    coroutine logs the failure, disconnects and returns, and the start
    button stays disabled; when the device is not found, and when a read
    fails, the same coroutine enables it again. *)
Theorem failed_connect_leaves_start_disabled
  (self : PokeballApp) (address : string)
  (reads : Z -> result bytes) (subscribe unsubscribe : result unit)
  (reports : list bytes) (cancel : bool) :
  connect_to_device utf8
    (mkBle (inr (Some address)) (inr false) reads subscribe reports cancel
       unsubscribe) self
  = mkRun
      (mkApp (log self ++ [Scanning; Found address; FailedToConnect]) false)
      [FindDeviceByName DEVICE_NAME 30; ClientEnter address; ClientExit]
      Returned
  /\
  connect_to_device utf8
    (mkBle (inr None) (inr false) reads subscribe reports cancel
       unsubscribe) self
  = mkRun (mkApp (log self ++ [Scanning; NotFound]) true)
      [FindDeviceByName DEVICE_NAME 30] Returned.
Proof.
  split.
  - unfold connect_to_device, client_block, client_exit, log_message, setEnabled.
    cbn [find_device_by_name client_enter negb status app calls log
         start_button_enabled List.app].
    rewrite <- !app_assoc. reflexivity.
  - unfold connect_to_device, log_message, setEnabled.
    cbn [find_device_by_name log start_button_enabled].
    rewrite <- !app_assoc. reflexivity.
Qed.

End WithDecode.

Example not_connected_run :
  connect_to_device ascii_only ble_not_connected fresh_app
  = mkRun (mkApp [Scanning; Found "D0:0D"; FailedToConnect] false)
      [FindDeviceByName DEVICE_NAME 30; ClientEnter "D0:0D"; ClientExit]
      Returned.
Proof. reflexivity. Qed.


End SessionFacts.

(* ================================================================== *)
(** ** Further facts about the decoder *)

Module DecoderMore.
Import Py PyFacts Decoder DecoderFacts FloatFacts Reports Layout.

Lemma slice_1_2 (a b : byte) (r : bytes) :
  slice (a :: b :: r) (Some 1) (Some 2) = [b].
Proof.
  change (a :: b :: r) with ([a] ++ [b] ++ r).
  apply slice_middle; slice_bounds.
Qed.

Lemma byte_val_inj (a b : byte) : byte_val a = byte_val b -> a = b.
Proof.
  unfold byte_val. intros H. apply N2Z.inj in H.
  pose proof (Byte.of_to_N a) as Ha. rewrite H, Byte.of_to_N in Ha.
  injection Ha as <-. reflexivity.
Qed.

Lemma byte_of_value (v : Z) : 0 <= v < 256 -> exists b : byte, byte_val b = v.
Proof.
  intros H. pose proof (Byte.to_of_N_option_map (Z.to_N v)) as Hm.
  assert (Hle : (Z.to_N v <=? 255)%N = true) by (apply N.leb_le; lia).
  rewrite Hle in Hm.
  destruct (Byte.of_N (Z.to_N v)) as [b|]; [|discriminate Hm].
  exists b. unfold byte_val. cbn [option_map] in Hm. injection Hm as ->.
  apply Z2N.id. lia.
Qed.

Lemma bits_of_buttons_check :
  all_from 256 0
    (fun v => Bool.eqb (negb (Z.land v 1 =? 0)) (Z.testbit v 0)
              && Bool.eqb (negb (Z.land v 2 =? 0)) (Z.testbit v 1)) = true.
Proof. vm_compute. reflexivity. Qed.

(** X1.  In every report of four bytes or more the two button flags are
    bits 0 and 1 of the byte at offset 1; the other six bits of that byte
    play no part. *)
Theorem buttons_are_bits_0_and_1 (data : bytes) :
  (4 <= List.length data)%nat ->
  exists (b : byte) (s : sample),
    nth_error data 1 = Some b /\
    decode data = inr s /\
    buttons s = byte_val b /\
    top_pressed s = Z.testbit (byte_val b) 0 /\
    joy_pressed s = Z.testbit (byte_val b) 1.
Proof.
  intros H.
  destruct (decode_long _ H)
    as (c & d & s & _ & _ & Hd & _ & _ & _ & Hb & Ht & Hj & _).
  destruct data as [|a [|b r]]; try (cbn [List.length] in H; lia).
  rewrite slice_1_2 in Hb.
  assert (Hv : buttons s = byte_val b)
    by (rewrite Hb; unfold int_from_bytes, unsigned_big; cbn; lia).
  exists b, s. split; [reflexivity|]. split; [exact Hd|].
  split; [exact Hv|].
  pose proof (byte_val_range b) as Hr.
  assert (Hr' : 0 <= byte_val b < 0 + Z.of_nat 256) by (cbn; lia).
  pose proof (all_from_spec _ _ 0 bits_of_buttons_check _ Hr') as Hc.
  cbv beta in Hc. apply andb_prop in Hc as [H0 H1].
  apply Bool.eqb_prop in H0, H1.
  rewrite Ht, Hj, Hv. split; assumption.
Qed.

Lemma buttons_are_bits_0_and_1_witness :
  (4 <= List.length report_mid)%nat /\
  exists (b : byte) (s : sample),
    nth_error report_mid 1 = Some b /\
    decode report_mid = inr s /\
    buttons s = byte_val b /\
    top_pressed s = Z.testbit (byte_val b) 0 /\
    joy_pressed s = Z.testbit (byte_val b) 1.
Proof.
  split; [vm_compute; lia|].
  apply (buttons_are_bits_0_and_1 report_mid). vm_compute. lia.
Defined.

Lemma int_from_bytes_signed2 (a b : byte) :
  int_from_bytes [a; b] true = signed16 a b.
Proof.
  pose proof (byte_val_range a). pose proof (byte_val_range b).
  unfold int_from_bytes, unsigned_big, signed16. cbn [fold_left].
  change (8 * Z.of_nat (List.length [a; b])) with 16.
  change (2 ^ (16 - 1)) with 32768. change (2 ^ 16) with 65536.
  rewrite andb_true_l. cbv zeta.
  destruct (Z.leb_spec 32768 ((0 * 256 + byte_val a) * 256 + byte_val b));
    destruct (Z.ltb_spec (256 * byte_val a + byte_val b) 32768); lia.
Qed.

Lemma signed16_range (a b : byte) : -32768 <= signed16 a b <= 32767.
Proof.
  pose proof (byte_val_range a). pose proof (byte_val_range b).
  unfold signed16. cbv zeta.
  destruct (Z.ltb_spec (256 * byte_val a + byte_val b) 32768); lia.
Qed.

Lemma signed16_split (a b : byte) :
  signed16 a b = 256 * Spec.signed8 a + byte_val b.
Proof.
  pose proof (byte_val_range a). pose proof (byte_val_range b).
  unfold signed16, Spec.signed8. cbv zeta.
  destruct (Z.ltb_spec (256 * byte_val a + byte_val b) 32768);
    destruct (Z.ltb_spec (byte_val a) 128); lia.
Qed.

(** A report of fourteen bytes, byte by byte. *)
Lemma fourteen_bytes (data : bytes) :
  List.length data = 14%nat ->
  exists b0 b1 b2 b3 b4 b5 b6 b7 b8 b9 b10 b11 b12 b13 : byte,
    data = [b0; b1; b2; b3; b4; b5; b6; b7; b8; b9; b10; b11; b12; b13].
Proof.
  intros H.
  do 14 (destruct data as [|? data]; [discriminate H|]).
  destruct data; [|discriminate H].
  repeat eexists.
Qed.

(** X2.  In a report of fourteen bytes the four gyroscope components are
    the byte pairs at offsets 6, 8, 10 and 12, each read as a signed
    big-endian 16-bit integer between -32768 and 32767, divided by 5600.0
    for X, Y, Z and by 32767.0 for W. *)
Theorem gyro_fields_are_signed16 (data : bytes) :
  List.length data = 14%nat ->
  exists (head : bytes) (b6 b7 b8 b9 b10 b11 b12 b13 : byte) (s : sample),
    data = (head ++ [b6; b7; b8; b9; b10; b11; b12; b13])%list /\
    List.length head = 6%nat /\
    decode data = inr s /\
    gyroX s = PrimFloat.div (float_of_int (signed16 b6 b7)) 5600 /\
    gyroY s = PrimFloat.div (float_of_int (signed16 b8 b9)) 5600 /\
    gyroZ s = PrimFloat.div (float_of_int (signed16 b10 b11)) 5600 /\
    gyroW s = PrimFloat.div (float_of_int (signed16 b12 b13)) 32767 /\
    -32768 <= signed16 b6 b7 <= 32767 /\
    -32768 <= signed16 b8 b9 <= 32767 /\
    -32768 <= signed16 b10 b11 <= 32767 /\
    -32768 <= signed16 b12 b13 <= 32767.
Proof.
  intros H.
  destruct (decode_long data) as (c & d & s & _ & _ & Hd & _ & _ & _ & _
                                   & _ & _ & HX & HY & HZ & HW & _); [lia|].
  destruct (fourteen_bytes _ H)
    as (b0 & b1 & b2 & b3 & b4 & b5 & b6 & b7 & b8 & b9 & b10 & b11
        & b12 & b13 & ->).
  exists [b0; b1; b2; b3; b4; b5], b6, b7, b8, b9, b10, b11, b12, b13, s.
  split; [reflexivity|]. split; [reflexivity|]. split; [exact Hd|].
  change (slice [b0; b1; b2; b3; b4; b5; b6; b7; b8; b9; b10; b11; b12; b13]
            (Some 6) (Some 8)) with [b6; b7] in HX.
  change (slice [b0; b1; b2; b3; b4; b5; b6; b7; b8; b9; b10; b11; b12; b13]
            (Some 8) (Some 10)) with [b8; b9] in HY.
  change (slice [b0; b1; b2; b3; b4; b5; b6; b7; b8; b9; b10; b11; b12; b13]
            (Some 10) (Some 12)) with [b10; b11] in HZ.
  change (slice [b0; b1; b2; b3; b4; b5; b6; b7; b8; b9; b10; b11; b12; b13]
            (Some 12) (Some 14)) with [b12; b13] in HW.
  unfold toInt in HX, HY, HZ, HW.
  rewrite int_from_bytes_signed2 in HX, HY, HZ, HW.
  repeat split; first [ assumption | apply signed16_range ].
Qed.

Lemma gyro_fields_are_signed16_witness :
  List.length report_ff = 14%nat /\
  exists (head : bytes) (b6 b7 b8 b9 b10 b11 b12 b13 : byte) (s : sample),
    report_ff = (head ++ [b6; b7; b8; b9; b10; b11; b12; b13])%list /\
    List.length head = 6%nat /\
    decode report_ff = inr s /\
    gyroX s = PrimFloat.div (float_of_int (signed16 b6 b7)) 5600 /\
    gyroY s = PrimFloat.div (float_of_int (signed16 b8 b9)) 5600 /\
    gyroZ s = PrimFloat.div (float_of_int (signed16 b10 b11)) 5600 /\
    gyroW s = PrimFloat.div (float_of_int (signed16 b12 b13)) 32767 /\
    -32768 <= signed16 b6 b7 <= 32767 /\
    -32768 <= signed16 b8 b9 <= 32767 /\
    -32768 <= signed16 b10 b11 <= 32767 /\
    -32768 <= signed16 b12 b13 <= 32767.
Proof.
  split; [reflexivity|]. apply (gyro_fields_are_signed16 report_ff). reflexivity.
Defined.

(** X3.  In a report of fourteen bytes the accelerometer bytes are the
    last three gyroscope bytes: the acceleration Y is the high byte and the
    acceleration X the low byte of the gyroscope W reading, and the
    acceleration Z is the low byte of the gyroscope Z reading. *)
Theorem accel_shares_gyro_bytes (data : bytes) :
  List.length data = 14%nat ->
  exists (head : bytes) (b10 b11 b12 b13 : byte) (s : sample),
    data = (head ++ [b10; b11; b12; b13])%list /\
    List.length head = 10%nat /\
    decode data = inr s /\
    accelX s = PrimFloat.div (float_of_int (Spec.signed8 b13)) 127 /\
    accelY s = PrimFloat.div (float_of_int (Spec.signed8 b12)) 127 /\
    accelZ s = PrimFloat.div (float_of_int (Spec.signed8 b11)) 127 /\
    gyroW s =
      PrimFloat.div
        (float_of_int (256 * Spec.signed8 b12 + byte_val b13)) 32767 /\
    gyroZ s =
      PrimFloat.div
        (float_of_int (256 * Spec.signed8 b10 + byte_val b11)) 5600.
Proof.
  intros H.
  destruct (decode_long data) as (c & d & s & _ & _ & Hd & _ & _ & _ & _
                                   & _ & _ & _ & _ & HZ & HW & _); [lia|].
  destruct (fourteen_bytes _ H)
    as (b0 & b1 & b2 & b3 & b4 & b5 & b6 & b7 & b8 & b9 & b10 & b11
        & b12 & b13 & ->).
  exists [b0; b1; b2; b3; b4; b5; b6; b7; b8; b9], b10, b11, b12, b13, s.
  split; [reflexivity|]. split; [reflexivity|]. split; [exact Hd|].
  change (slice [b0; b1; b2; b3; b4; b5; b6; b7; b8; b9; b10; b11; b12; b13]
            (Some 10) (Some 12)) with [b10; b11] in HZ.
  change (slice [b0; b1; b2; b3; b4; b5; b6; b7; b8; b9; b10; b11; b12; b13]
            (Some 12) (Some 14)) with [b12; b13] in HW.
  unfold toInt in HZ, HW.
  rewrite int_from_bytes_signed2, signed16_split in HZ, HW.
  change [b0; b1; b2; b3; b4; b5; b6; b7; b8; b9; b10; b11; b12; b13]
    with ([b0; b1; b2; b3; b4; b5; b6; b7; b8; b9; b10] ++ [b11; b12; b13])%list
    in Hd.
  destruct (Accel.accel_of_last_three _ _ _ _ _ Hd) as (Hx & Hy & Hz);
    [cbn [List.length List.app]; lia|].
  repeat split; assumption.
Qed.

Lemma accel_shares_gyro_bytes_witness :
  List.length report_ff = 14%nat /\
  exists (head : bytes) (b10 b11 b12 b13 : byte) (s : sample),
    report_ff = (head ++ [b10; b11; b12; b13])%list /\
    List.length head = 10%nat /\
    decode report_ff = inr s /\
    accelX s = PrimFloat.div (float_of_int (Spec.signed8 b13)) 127 /\
    accelY s = PrimFloat.div (float_of_int (Spec.signed8 b12)) 127 /\
    accelZ s = PrimFloat.div (float_of_int (Spec.signed8 b11)) 127 /\
    gyroW s =
      PrimFloat.div
        (float_of_int (256 * Spec.signed8 b12 + byte_val b13)) 32767 /\
    gyroZ s =
      PrimFloat.div
        (float_of_int (256 * Spec.signed8 b10 + byte_val b11)) 5600.
Proof.
  split; [reflexivity|]. apply (accel_shares_gyro_bytes report_ff). reflexivity.
Defined.

Lemma joyX_unit_check :
  all_from (Z.to_nat 65536) 0
    (fun raw => Bool.eqb (in_unit_range (joyX_normalised raw))
                  ((JOY_X_MIN <=? raw) && (raw <=? JOY_X_MAX))) = true.
Proof. vm_compute. reflexivity. Qed.

Lemma joyY_unit_check :
  all_from (Z.to_nat 65536) 0
    (fun raw => Bool.eqb (in_unit_range (joyY_normalised raw))
                  ((JOY_Y_MIN <=? raw) && (raw <=? JOY_Y_MAX))) = true.
Proof. vm_compute. reflexivity. Qed.

Lemma joyX_unit_iff (raw : Z) :
  0 <= raw < 65536 ->
  (in_unit_range (joyX_normalised raw) = true
   <-> JOY_X_MIN <= raw <= JOY_X_MAX).
Proof.
  intros H.
  assert (Hr : 0 <= raw < 0 + Z.of_nat (Z.to_nat 65536))
    by (rewrite Z2Nat.id; lia).
  pose proof (all_from_spec _ _ 0 joyX_unit_check raw Hr) as Hc.
  cbv beta in Hc. apply Bool.eqb_prop in Hc. rewrite Hc.
  rewrite andb_true_iff, !Z.leb_le. reflexivity.
Qed.

Lemma joyY_unit_iff (raw : Z) :
  0 <= raw < 65536 ->
  (in_unit_range (joyY_normalised raw) = true
   <-> JOY_Y_MIN <= raw <= JOY_Y_MAX).
Proof.
  intros H.
  assert (Hr : 0 <= raw < 0 + Z.of_nat (Z.to_nat 65536))
    by (rewrite Z2Nat.id; lia).
  pose proof (all_from_spec _ _ 0 joyY_unit_check raw Hr) as Hc.
  cbv beta in Hc. apply Bool.eqb_prop in Hc. rewrite Hc.
  rewrite andb_true_iff, !Z.leb_le. reflexivity.
Qed.

(** The reading of [data[4:6]] is a 16-bit unsigned value whatever the
    length of the report. *)
Lemma joyY_raw_value_range (data : bytes) :
  0 <= joyY_raw_value data < 65536.
Proof.
  unfold joyY_raw_value.
  assert (Hl : (List.length (slice data (Some 4%Z) (Some 6%Z)) <= 2)%nat).
  { unfold slice, clamp_index.
    change (4 <? 0) with false. change (6 <? 0) with false. cbv iota.
    rewrite length_firstn. lia. }
  destruct (slice data (Some 4) (Some 6)) as [|a [|b [|c l]]].
  - cbn. lia.
  - pose proof (byte_val_range a).
    unfold int_from_bytes, unsigned_big. cbn. lia.
  - pose proof (byte_val_range a). pose proof (byte_val_range b).
    rewrite int_from_bytes_unsigned2. lia.
  - cbn [List.length] in Hl. lia.
Qed.

(** X4.  The decoded joystick X lies in [-1, 1] exactly when the raw
    reading lies between the calibration bounds 7980 and 49620, which map
    to -1.0 and 1.0; every other reading gives a value outside. *)
Theorem joyX_in_range_iff_calibrated (data : bytes) :
  (4 <= List.length data)%nat ->
  exists (raw : Z) (s : sample),
    joyX_raw_value data = inr raw /\
    decode data = inr s /\
    (in_unit_range (joyX s) = true <-> JOY_X_MIN <= raw <= JOY_X_MAX) /\
    (raw = JOY_X_MIN -> joyX s = (-1)%float) /\
    (raw = JOY_X_MAX -> joyX s = 1%float).
Proof.
  intros H.
  destruct (decode_long _ H) as (c & d & s & _ & Hv & Hd & Hx & _).
  eexists _, s. split; [exact Hv|]. split; [exact Hd|].
  rewrite Hx. split; [apply joyX_unit_iff, joyX_raw_value_range|].
  split; intros ->; vm_compute; reflexivity.
Qed.

Lemma joyX_in_range_iff_calibrated_witness :
  (4 <= List.length report_mid)%nat /\
  exists (raw : Z) (s : sample),
    joyX_raw_value report_mid = inr raw /\
    decode report_mid = inr s /\
    (in_unit_range (joyX s) = true <-> JOY_X_MIN <= raw <= JOY_X_MAX) /\
    (raw = JOY_X_MIN -> joyX s = (-1)%float) /\
    (raw = JOY_X_MAX -> joyX s = 1%float).
Proof.
  split; [vm_compute; lia|].
  apply (joyX_in_range_iff_calibrated report_mid). vm_compute. lia.
Defined.

(** X5.  The decoded joystick Y lies in [-1, 1] exactly when the reading
    of bytes [4:6] lies between the calibration bounds 13350 and 50280;
    the axis is inverted, the lower bound maps to 1.0 and the upper bound
    to -1.0. *)
Theorem joyY_in_range_iff_calibrated (data : bytes) :
  (4 <= List.length data)%nat ->
  exists s : sample,
    decode data = inr s /\
    (in_unit_range (joyY s) = true
     <-> JOY_Y_MIN <= joyY_raw_value data <= JOY_Y_MAX) /\
    (joyY_raw_value data = JOY_Y_MIN -> joyY s = 1%float) /\
    (joyY_raw_value data = JOY_Y_MAX -> joyY s = (-1)%float).
Proof.
  intros H.
  destruct (decode_long _ H) as (c & d & s & _ & _ & Hd & _ & Hy & _).
  exists s. split; [exact Hd|].
  rewrite Hy. split; [apply joyY_unit_iff, joyY_raw_value_range|].
  split; intros ->; vm_compute; reflexivity.
Qed.

Lemma joyY_in_range_iff_calibrated_witness :
  (4 <= List.length report_mid)%nat /\
  exists s : sample,
    decode report_mid = inr s /\
    (in_unit_range (joyY s) = true
     <-> JOY_Y_MIN <= joyY_raw_value report_mid <= JOY_Y_MAX) /\
    (joyY_raw_value report_mid = JOY_Y_MIN -> joyY s = 1%float) /\
    (joyY_raw_value report_mid = JOY_Y_MAX -> joyY s = (-1)%float).
Proof.
  split; [vm_compute; lia|].
  apply (joyY_in_range_iff_calibrated report_mid). vm_compute. lia.
Defined.

Lemma byte_val_nybbles (b : byte) :
  byte_val b = 16 * (byte_val b / 16) + byte_val b mod 16.
Proof. apply Z.div_mod. lia. Qed.

(** Four hexadecimal digits are determined by the number they write. *)
Lemma digits16_unique (a b c d a' b' c' d' : Z) :
  0 <= a < 16 -> 0 <= b < 16 -> 0 <= c < 16 -> 0 <= d < 16 ->
  0 <= a' < 16 -> 0 <= b' < 16 -> 0 <= c' < 16 -> 0 <= d' < 16 ->
  4096 * a + 256 * b + 16 * c + d = 4096 * a' + 256 * b' + 16 * c' + d' ->
  a = a' /\ b = b' /\ c = c' /\ d = d'.
Proof. intros. lia. Qed.

(** X6.  The nybble permutation loses nothing: two reports with the same
    raw joystick X reading have the same two bytes at offsets 2 and 3. *)
Theorem joyX_raw_value_injective (data data' : bytes) :
  (4 <= List.length data)%nat ->
  (4 <= List.length data')%nat ->
  joyX_raw_value data = joyX_raw_value data' ->
  slice data (Some 2) (Some 4) = slice data' (Some 2) (Some 4).
Proof.
  intros H H' E.
  destruct (decode_long _ H) as (c & d & s & Hs & Hv & _).
  destruct (decode_long _ H') as (c' & d' & s' & Hs' & Hv' & _).
  rewrite Hv, Hv' in E. injection E as E.
  destruct (nybbles_range c) as [Hc1 Hc2], (nybbles_range d) as [Hd1 Hd2].
  destruct (nybbles_range c') as [Hc1' Hc2'], (nybbles_range d') as [Hd1' Hd2'].
  pose proof (byte_val_nybbles c) as Ec. pose proof (byte_val_nybbles d) as Ed.
  pose proof (byte_val_nybbles c') as Ec'.
  pose proof (byte_val_nybbles d') as Ed'.
  destruct (digits16_unique _ _ _ _ _ _ _ _ Hd2 Hc1 Hd1 Hc2 Hd2' Hc1' Hd1' Hc2' E)
    as (E3 & E0 & E2 & E1).
  assert (Hcc : byte_val c = byte_val c') by (rewrite Ec, Ec', E0, E1; reflexivity).
  assert (Hdd : byte_val d = byte_val d') by (rewrite Ed, Ed', E2, E3; reflexivity).
  apply byte_val_inj in Hcc, Hdd. subst c' d'.
  rewrite Hs, Hs'. reflexivity.
Qed.

Lemma joyX_raw_value_injective_witness :
  slice report_mid (Some 2) (Some 4)
  = slice [x01; x02; x00; x87] (Some 2) (Some 4).
Proof.
  apply (joyX_raw_value_injective report_mid [x01; x02; x00; x87]);
    [vm_compute; lia | vm_compute; lia | reflexivity].
Defined.

Lemma nybble_pair (h l : Z) :
  0 <= h < 16 -> 0 <= l < 16 ->
  (16 * h + l) / 16 = h /\ (16 * h + l) mod 16 = l.
Proof.
  intros Hh Hl. split.
  - symmetry. apply (Z.div_unique (16 * h + l) 16 h l); [left; lia | lia].
  - symmetry. apply (Z.mod_unique (16 * h + l) 16 h l); [left; lia | lia].
Qed.

Lemma hex_expansion_check :
  all_from (Z.to_nat 65536) 0
    (fun v => 4096 * (v / 4096) + 256 * ((v / 256) mod 16)
              + 16 * ((v / 16) mod 16) + v mod 16 =? v) = true.
Proof. vm_compute. reflexivity. Qed.

(** X7.  Every 16-bit value is the raw joystick X reading of some pair of
    bytes at offsets 2 and 3, whatever surrounds them. *)
Theorem joyX_raw_value_surjective (v : Z) :
  0 <= v < 65536 ->
  exists c d : byte,
    forall (a b : byte) (rest : bytes),
      joyX_raw_value (a :: b :: c :: d :: rest) = inr v.
Proof.
  intros H.
  assert (Hr : 0 <= v < 0 + Z.of_nat (Z.to_nat 65536))
    by (rewrite Z2Nat.id; lia).
  pose proof (all_from_spec _ _ 0 hex_expansion_check v Hr) as Hx.
  cbv beta in Hx. apply Z.eqb_eq in Hx.
  assert (H3 : 0 <= v / 4096 < 16)
    by (split; [apply Z.div_pos; lia | apply Z.div_lt_upper_bound; lia]).
  assert (H0 : 0 <= (v / 256) mod 16 < 16) by (apply Z.mod_pos_bound; lia).
  assert (H2 : 0 <= (v / 16) mod 16 < 16) by (apply Z.mod_pos_bound; lia).
  assert (H1 : 0 <= v mod 16 < 16) by (apply Z.mod_pos_bound; lia).
  destruct (byte_of_value (16 * ((v / 256) mod 16) + v mod 16)) as (c & Hc);
    [lia|].
  destruct (byte_of_value (16 * ((v / 16) mod 16) + v / 4096)) as (d & Hd);
    [lia|].
  exists c, d. intros a b rest.
  rewrite (joyX_raw_value_two _ _ _ (slice_2_4 a b c d rest)).
  rewrite Hc, Hd.
  destruct (nybble_pair _ _ H0 H1) as [-> ->].
  destruct (nybble_pair _ _ H2 H3) as [-> ->].
  f_equal. exact Hx.
Qed.

Lemma joyX_raw_value_surjective_witness :
  exists c d : byte,
    forall (a b : byte) (rest : bytes),
      joyX_raw_value (a :: b :: c :: d :: rest) = inr 28800.
Proof. apply (joyX_raw_value_surjective 28800). lia. Defined.

Lemma accel_unit_check :
  all_from 256 0
    (fun v => Bool.eqb
                (in_unit_range
                   (PrimFloat.div
                      (float_of_int (if v <? 128 then v else v - 256)) 127))
                (negb (v =? 128))) = true.
Proof. vm_compute. reflexivity. Qed.

Lemma accel_unit_iff (b : byte) :
  in_unit_range (PrimFloat.div (float_of_int (Spec.signed8 b)) 127)
  = negb (byte_val b =? 128).
Proof.
  pose proof (byte_val_range b) as Hb.
  assert (Hr : 0 <= byte_val b < 0 + Z.of_nat 256) by (cbn; lia).
  pose proof (all_from_spec _ _ 0 accel_unit_check _ Hr) as Hc.
  cbv beta in Hc. apply Bool.eqb_prop in Hc. exact Hc.
Qed.

(** X8.  Each acceleration lies in [-1, 1] unless its byte is [80], the
    signed value -128, which gives -128/127.0, below -1. *)
Theorem accel_in_range_unless_80 (data : bytes) :
  (4 <= List.length data)%nat ->
  exists (front : bytes) (z y x : byte) (s : sample),
    data = (front ++ [z; y; x])%list /\
    decode data = inr s /\
    in_unit_range (accelX s) = negb (byte_val x =? 128) /\
    in_unit_range (accelY s) = negb (byte_val y =? 128) /\
    in_unit_range (accelZ s) = negb (byte_val z =? 128) /\
    (x = x80 -> PrimFloat.ltb (accelX s) (-1)%float = true) /\
    (y = x80 -> PrimFloat.ltb (accelY s) (-1)%float = true) /\
    (z = x80 -> PrimFloat.ltb (accelZ s) (-1)%float = true).
Proof.
  intros Hlen.
  destruct (last_three data) as (front & z & y & x & ->); [lia|].
  destruct (decode_long _ Hlen) as (c & d & s & _ & _ & Hd & _).
  destruct (Accel.accel_of_last_three _ _ _ _ _ Hd Hlen) as (Hx & Hy & Hz).
  exists front, z, y, x, s.
  split; [reflexivity|]. split; [exact Hd|].
  rewrite Hx, Hy, Hz.
  split; [apply accel_unit_iff|]. split; [apply accel_unit_iff|].
  split; [apply accel_unit_iff|].
  repeat split; intros ->; vm_compute; reflexivity.
Qed.

Lemma accel_in_range_unless_80_witness :
  (4 <= List.length report_ff)%nat /\
  exists (front : bytes) (z y x : byte) (s : sample),
    report_ff = (front ++ [z; y; x])%list /\
    decode report_ff = inr s /\
    in_unit_range (accelX s) = negb (byte_val x =? 128) /\
    in_unit_range (accelY s) = negb (byte_val y =? 128) /\
    in_unit_range (accelZ s) = negb (byte_val z =? 128) /\
    (x = x80 -> PrimFloat.ltb (accelX s) (-1)%float = true) /\
    (y = x80 -> PrimFloat.ltb (accelY s) (-1)%float = true) /\
    (z = x80 -> PrimFloat.ltb (accelZ s) (-1)%float = true).
Proof.
  split; [vm_compute; lia|].
  apply (accel_in_range_unless_80 report_ff). vm_compute. lia.
Defined.

Lemma gyroW_unit_check :
  all_from (Z.to_nat 65536) 0
    (fun u => let raw := if u <? 32768 then u else u - 65536 in
              Bool.eqb
                (in_unit_range (PrimFloat.div (float_of_int raw) 32767))
                (negb (raw =? -32768))) = true.
Proof. vm_compute. reflexivity. Qed.

(** X9.  In a report of fourteen bytes the gyroscope W lies in [-1, 1]
    unless its reading is -32768 (bytes [80 00]): the divisor is 32767. *)
Theorem gyroW_in_range_unless_min (data : bytes) :
  List.length data = 14%nat ->
  exists (head : bytes) (b12 b13 : byte) (s : sample),
    data = (head ++ [b12; b13])%list /\
    decode data = inr s /\
    gyroW s = PrimFloat.div (float_of_int (signed16 b12 b13)) 32767 /\
    in_unit_range (gyroW s) = negb (signed16 b12 b13 =? -32768) /\
    (b12 = x80 -> b13 = x00 ->
     PrimFloat.ltb (gyroW s) (-1)%float = true).
Proof.
  intros H.
  destruct (decode_long data) as (c & d & s & _ & _ & Hd & _ & _ & _ & _
                                   & _ & _ & _ & _ & _ & HW & _); [lia|].
  destruct (fourteen_bytes _ H)
    as (b0 & b1 & b2 & b3 & b4 & b5 & b6 & b7 & b8 & b9 & b10 & b11
        & b12 & b13 & ->).
  exists [b0; b1; b2; b3; b4; b5; b6; b7; b8; b9; b10; b11], b12, b13, s.
  split; [reflexivity|]. split; [exact Hd|].
  change (slice [b0; b1; b2; b3; b4; b5; b6; b7; b8; b9; b10; b11; b12; b13]
            (Some 12) (Some 14)) with [b12; b13] in HW.
  unfold toInt in HW. rewrite int_from_bytes_signed2 in HW.
  split; [exact HW|]. rewrite HW. split.
  - pose proof (byte_val_range b12). pose proof (byte_val_range b13).
    assert (Hr : 0 <= 256 * byte_val b12 + byte_val b13
                 < 0 + Z.of_nat (Z.to_nat 65536))
      by (rewrite Z2Nat.id; lia).
    pose proof (all_from_spec _ _ 0 gyroW_unit_check _ Hr) as Hc.
    cbv beta zeta in Hc. apply Bool.eqb_prop in Hc. exact Hc.
  - intros -> ->. vm_compute. reflexivity.
Qed.

Lemma gyroW_in_range_unless_min_witness :
  List.length report_ff = 14%nat /\
  exists (head : bytes) (b12 b13 : byte) (s : sample),
    report_ff = (head ++ [b12; b13])%list /\
    decode report_ff = inr s /\
    gyroW s = PrimFloat.div (float_of_int (signed16 b12 b13)) 32767 /\
    in_unit_range (gyroW s) = negb (signed16 b12 b13 =? -32768) /\
    (b12 = x80 -> b13 = x00 ->
     PrimFloat.ltb (gyroW s) (-1)%float = true).
Proof.
  split; [reflexivity|].
  apply (gyroW_in_range_unless_min report_ff). reflexivity.
Defined.

End DecoderMore.

(* ================================================================== *)
(** ** The paths of the coroutine *)

Module SessionMore.
Import Py Decoder Session Notifications.

Section WithDecode.

Variable utf8 : bytes -> option string.

(** X10.  The three characteristics are read in the order manufacturer
    name, software revision, battery level, and a read is made only when
    every read and every decoding before it succeeded: the reads made are
    one, two or three of that list, from its start. *)
Theorem reads_stop_at_first_failure (ble : Ble) :
  (exists n : nat,
     (1 <= n <= 3)%nat /\
     fst (read_device_info utf8 ble) = firstn n all_reads) /\
  (In (ReadGattChar SOFTWARE_REVISION) (fst (read_device_info utf8 ble)) ->
   exists m name,
     read_gatt_char ble MANUFACTURER_NAME = inr m /\ utf8 m = Some name) /\
  (In (ReadGattChar BATTERY_LEVEL) (fst (read_device_info utf8 ble)) ->
   exists sw rev,
     read_gatt_char ble SOFTWARE_REVISION = inr sw /\ utf8 sw = Some rev) /\
  (forall v, snd (read_device_info utf8 ble) = inr v ->
     fst (read_device_info utf8 ble) = all_reads /\
     exists m name sw rev b,
       read_gatt_char ble MANUFACTURER_NAME = inr m /\ utf8 m = Some name /\
       read_gatt_char ble SOFTWARE_REVISION = inr sw /\ utf8 sw = Some rev /\
       read_gatt_char ble BATTERY_LEVEL = inr b /\
       v = (name, rev, int_from_bytes b false)).
Proof.
  destruct (SessionFacts.read_device_info_cases utf8 ble)
    as [(e & H1 & ->) | [(m & H1 & Hm & ->) | [(m & name & e & H1 & Hm & H2 & ->)
       | [(m & name & sw & H1 & Hm & H2 & Hs & ->)
       | [(m & name & sw & rev & e & H1 & Hm & H2 & Hs & H3 & ->)
       | (m & name & sw & rev & b & H1 & Hm & H2 & Hs & H3 & ->)]]]]];
    cbn [fst snd].
  - split; [exists 1%nat; split; [lia | reflexivity]|].
    split; [intros [H | []]; discriminate H|].
    split; [intros [H | []]; discriminate H|]. intros v H; discriminate H.
  - split; [exists 1%nat; split; [lia | reflexivity]|].
    split; [intros [H | []]; discriminate H|].
    split; [intros [H | []]; discriminate H|]. intros v H; discriminate H.
  - split; [exists 2%nat; split; [lia | reflexivity]|].
    split; [intros _; exists m, name; split; assumption|].
    split; [intros [H | [H | []]]; discriminate H|]. intros v H; discriminate H.
  - split; [exists 2%nat; split; [lia | reflexivity]|].
    split; [intros _; exists m, name; split; assumption|].
    split; [intros [H | [H | []]]; discriminate H|]. intros v H; discriminate H.
  - split; [exists 3%nat; split; [lia | reflexivity]|].
    split; [intros _; exists m, name; split; assumption|].
    split; [intros _; exists sw, rev; split; assumption|].
    intros v H; discriminate H.
  - split; [exists 3%nat; split; [lia | reflexivity]|].
    split; [intros _; exists m, name; split; assumption|].
    split; [intros _; exists sw, rev; split; assumption|].
    intros v H. injection H as <-. split; [reflexivity|].
    exists m, name, sw, rev, b. repeat split; assumption.
Qed.

Lemma read_device_info_ok (ble : Ble) (reads : list ble_call)
  (v : string * string * Z) :
  read_device_info utf8 ble = (reads, inr v) -> reads = all_reads.
Proof.
  intros H.
  destruct (SessionFacts.read_device_info_cases utf8 ble)
    as [(e & _ & E) | [(m & _ & _ & E) | [(m & name & e & _ & _ & _ & E)
       | [(m & name & sw & _ & _ & _ & _ & E)
       | [(m & name & sw & rev & e & _ & _ & _ & _ & _ & E)
       | (m & name & sw & rev & b & _ & _ & _ & _ & _ & E)]]]]];
    rewrite H in E; try discriminate E.
  injection E as -> _. reflexivity.
Qed.

(** The ten ways through [connect_to_device], each with the run it
    gives. *)
Lemma run_cases (ble : Ble) (self : PokeballApp) :
  let scan := FindDeviceByName DEVICE_NAME 30 in
  let r := connect_to_device utf8 ble self in
  (exists e,
     find_device_by_name ble = inl e /\
     r = mkRun (mkApp (log self ++ [Scanning]) false) [scan] (Raised e))
  \/ (find_device_by_name ble = inr None /\
      r = mkRun (mkApp (log self ++ [Scanning; NotFound]) true) [scan]
            Returned)
  \/ (exists a e,
        find_device_by_name ble = inr (Some a) /\ client_enter ble = inl e /\
        r = mkRun (mkApp (log self ++ [Scanning; Found a]) false)
              [scan; ClientEnter a] (Raised e))
  \/ (exists a,
        find_device_by_name ble = inr (Some a) /\
        client_enter ble = inr false /\
        r = mkRun
              (mkApp (log self ++ [Scanning; Found a; FailedToConnect]) false)
              [scan; ClientEnter a; ClientExit] Returned)
  \/ (exists a reads e,
        find_device_by_name ble = inr (Some a) /\
        client_enter ble = inr true /\
        read_device_info utf8 ble = (reads, inl e) /\
        is_Exception e = true /\
        r = mkRun
              (mkApp (log self ++ [Scanning; Found a; Connected;
                                   ErrorReading e]) true)
              (scan :: ClientEnter a :: reads ++ [ClientExit]) Returned)
  \/ (exists a reads e,
        find_device_by_name ble = inr (Some a) /\
        client_enter ble = inr true /\
        read_device_info utf8 ble = (reads, inl e) /\
        is_Exception e = false /\
        r = mkRun (mkApp (log self ++ [Scanning; Found a; Connected]) false)
              (scan :: ClientEnter a :: reads ++ [ClientExit]) (Raised e))
  \/ (exists a name rev battery e,
        find_device_by_name ble = inr (Some a) /\
        client_enter ble = inr true /\
        read_device_info utf8 ble = (all_reads, inr (name, rev, battery)) /\
        start_notify ble = inl e /\
        r = mkRun
              (mkApp (log self ++ [Scanning; Found a; Connected;
                                   Manufacturer name; BatteryLevel battery;
                                   SoftwareRev rev]) false)
              (scan :: ClientEnter a
                 :: all_reads ++ [StartNotify INPUT; ClientExit])
              (Raised e))
  \/ (exists a name rev battery u,
        find_device_by_name ble = inr (Some a) /\
        client_enter ble = inr true /\
        read_device_info utf8 ble = (all_reads, inr (name, rev, battery)) /\
        start_notify ble = inr u /\ cancelled ble = false /\
        r = mkRun
              (mkApp (log self ++ [Scanning; Found a; Connected;
                                   Manufacturer name; BatteryLevel battery;
                                   SoftwareRev rev; Listening]
                        ++ map input_line (notifications ble)) false)
              (scan :: ClientEnter a :: all_reads ++ [StartNotify INPUT])
              Waiting)
  \/ (exists a name rev battery u e,
        find_device_by_name ble = inr (Some a) /\
        client_enter ble = inr true /\
        read_device_info utf8 ble = (all_reads, inr (name, rev, battery)) /\
        start_notify ble = inr u /\ cancelled ble = true /\
        stop_notify ble = inl e /\
        r = mkRun
              (mkApp (log self ++ [Scanning; Found a; Connected;
                                   Manufacturer name; BatteryLevel battery;
                                   SoftwareRev rev; Listening]
                        ++ map input_line (notifications ble)) false)
              (scan :: ClientEnter a
                 :: all_reads
                    ++ [StartNotify INPUT; StopNotify INPUT; ClientExit])
              (Raised e))
  \/ (exists a name rev battery u u',
        find_device_by_name ble = inr (Some a) /\
        client_enter ble = inr true /\
        read_device_info utf8 ble = (all_reads, inr (name, rev, battery)) /\
        start_notify ble = inr u /\ cancelled ble = true /\
        stop_notify ble = inr u' /\
        r = mkRun
              (mkApp (log self ++ [Scanning; Found a; Connected;
                                   Manufacturer name; BatteryLevel battery;
                                   SoftwareRev rev; Listening]
                        ++ map input_line (notifications ble) ++ [Stopped])
                 true)
              (scan :: ClientEnter a
                 :: all_reads
                    ++ [StartNotify INPUT; StopNotify INPUT; ClientExit])
              Returned).
Proof.
  cbv zeta. unfold connect_to_device.
  destruct (find_device_by_name ble) as [e | [a|]].
  { left. exists e. split; reflexivity. }
  2: { right; left. split; [reflexivity|].
       unfold log_message, setEnabled. cbn [log start_button_enabled].
       rewrite <- !app_assoc. reflexivity. }
  destruct (client_enter ble) as [e | [|]].
  { do 2 right; left. exists a, e. split; [reflexivity|].
    split; [reflexivity|].
    unfold log_message, setEnabled. cbn [log start_button_enabled].
    rewrite <- !app_assoc. reflexivity. }
  2: { do 3 right; left. exists a. split; [reflexivity|].
       split; [reflexivity|].
       unfold client_block, client_exit, log_message, setEnabled.
       cbn [negb status Session.app calls log start_button_enabled List.app].
       rewrite <- !app_assoc. reflexivity. }
  unfold client_block. cbn [negb].
  destruct (read_device_info utf8 ble)
    as [reads [e | [[name rev] battery]]] eqn:Hi.
  { destruct (is_Exception e) eqn:He.
    - do 4 right; left. exists a, reads, e. repeat (split; [reflexivity|]).
      split; [exact He|].
      unfold client_exit, log_message, setEnabled.
      cbn [status Session.app calls log start_button_enabled List.app].
      rewrite <- !app_assoc. reflexivity.
    - do 5 right; left. exists a, reads, e. repeat (split; [reflexivity|]).
      split; [exact He|].
      unfold client_exit, log_message, setEnabled.
      cbn [status Session.app calls log start_button_enabled List.app].
      rewrite <- !app_assoc. reflexivity. }
  pose proof (read_device_info_ok _ _ _ Hi) as ->.
  destruct (start_notify ble) as [e | u].
  { do 6 right; left. exists a, name, rev, battery, e.
    repeat (split; [reflexivity|]).
    unfold client_exit, log_message, setEnabled.
    cbn [status Session.app calls log start_button_enabled].
    rewrite <- !app_assoc. reflexivity. }
  unfold listen. rewrite deliver_all.
  destruct (cancelled ble).
  - destruct (stop_notify ble) as [e | u'].
    + do 8 right; left. exists a, name, rev, battery, u, e.
      repeat (split; [reflexivity|]).
      unfold client_exit, log_message, setEnabled.
      cbn [status Session.app calls log start_button_enabled].
      rewrite <- !app_assoc. reflexivity.
    + do 9 right. exists a, name, rev, battery, u, u'.
      repeat (split; [reflexivity|]).
      unfold client_exit, log_message, setEnabled.
      cbn [status Session.app calls log start_button_enabled].
      rewrite <- !app_assoc. reflexivity.
  - do 7 right; left. exists a, name, rev, battery, u.
    repeat (split; [reflexivity|]).
    unfold client_exit, log_message, setEnabled.
    cbn [status Session.app calls log start_button_enabled].
    rewrite <- !app_assoc. reflexivity.
Qed.

(** Splits a goal about [connect_to_device utf8 ble self] along
    [run_cases]. *)
Ltac paths ble self :=
  let H := fresh "Hpaths" in
  pose proof (run_cases ble self) as H; cbv zeta in H;
  destruct H
    as [(?e & ?Hf & ->)
       | [(?Hf & ->)
       | [(?a & ?e & ?Hf & ?Hc & ->)
       | [(?a & ?Hf & ?Hc & ->)
       | [(?a & ?reads & ?e & ?Hf & ?Hc & ?Hi & ?He & ->)
       | [(?a & ?reads & ?e & ?Hf & ?Hc & ?Hi & ?He & ->)
       | [(?a & ?name & ?rev & ?battery & ?e & ?Hf & ?Hc & ?Hi & ?Hs & ->)
       | [(?a & ?name & ?rev & ?battery & ?u & ?Hf & ?Hc & ?Hi & ?Hs & ?Hk
           & ->)
       | [(?a & ?name & ?rev & ?battery & ?u & ?e & ?Hf & ?Hc & ?Hi & ?Hs
           & ?Hk & ?Ht & ->)
       | (?a & ?name & ?rev & ?battery & ?u & ?u' & ?Hf & ?Hc & ?Hi & ?Hs
          & ?Hk & ?Ht & ->)]]]]]]]]];
  cbn [status Session.app calls log start_button_enabled].

(** The run with a disconnection that may raise, from the run in which
    it returns: the window and the calls are the same, and an exception of
    the disconnection replaces the outcome of a block that was entered
    and left. *)
Lemma aexit_run (aexit : result unit) (ble : Ble) (self : PokeballApp) :
  connect_to_device_aexit utf8 aexit ble self
  = mkRun (Session.app (connect_to_device utf8 ble self))
      (calls (connect_to_device utf8 ble self))
      (match aexit, status (connect_to_device utf8 ble self) with
       | _, Waiting => Waiting
       | inl e, s => if block_entered ble then Raised e else s
       | inr _, s => s
       end).
Proof.
  unfold connect_to_device_aexit, connect_to_device, block_entered.
  destruct (find_device_by_name ble) as [e | [a|]];
    [destruct aexit; reflexivity | | destruct aexit; reflexivity].
  destruct (client_enter ble) as [e | b]; [destruct aexit; reflexivity|].
  unfold client_aexit, client_exit.
  destruct (status (client_block utf8 ble _ b)) eqn:Hst;
    destruct aexit; cbn [status Session.app calls]; rewrite ?Hst; reflexivity.
Qed.

Lemma aexit_returns (u : unit) (ble : Ble) (self : PokeballApp) :
  connect_to_device_aexit utf8 (inr u) ble self
  = connect_to_device utf8 ble self.
Proof.
  rewrite aexit_run.
  destruct (connect_to_device utf8 ble self) as [window made [| |]];
    reflexivity.
Qed.

(** X11.  The start button after a run, the disconnection on leaving the
    [async with] block giving [aexit].  A run still listening leaves the
    button disabled.  A run that returned leaves it enabled in every case
    but one: a device found whose client is not connected.  A run that
    raised leaves it disabled, unless what it raised is the exception of
    the disconnection and the block had already enabled the button: after
    the error of a read was caught (line 64), or after the listening was
    stopped (line 80). *)
Theorem start_button_after_run
  (aexit : result unit) (ble : Ble) (self : PokeballApp) :
  (status (connect_to_device_aexit utf8 aexit ble self) = Waiting ->
   start_button_enabled
     (Session.app (connect_to_device_aexit utf8 aexit ble self)) = false) /\
  (status (connect_to_device_aexit utf8 aexit ble self) = Returned ->
   (start_button_enabled
      (Session.app (connect_to_device_aexit utf8 aexit ble self)) = false
    <-> exists a, find_device_by_name ble = inr (Some a)
                  /\ client_enter ble = inr false)) /\
  (forall e,
     status (connect_to_device_aexit utf8 aexit ble self) = Raised e ->
     (start_button_enabled
        (Session.app (connect_to_device_aexit utf8 aexit ble self)) = true
      <-> aexit = inl e /\
          (exists a, find_device_by_name ble = inr (Some a)) /\
          client_enter ble = inr true /\
          ((exists e', snd (read_device_info utf8 ble) = inl e'
                       /\ is_Exception e' = true)
           \/ ((exists v, snd (read_device_info utf8 ble) = inr v) /\
               (exists u, start_notify ble = inr u) /\
               cancelled ble = true /\
               exists u', stop_notify ble = inr u')))) /\
  (forall u e,
     aexit = inr u ->
     status (connect_to_device_aexit utf8 aexit ble self) = Raised e ->
     start_button_enabled
       (Session.app (connect_to_device_aexit utf8 aexit ble self)) = false).
Proof.
  rewrite aexit_run. unfold block_entered.
  paths ble self; rewrite ?Hf, ?Hc; rewrite ?Hi; cbn [snd];
    destruct aexit as [x | u0];
    (split;
     [intros H; first [reflexivity | discriminate H]
     |split;
      [intros H;
       first
         [discriminate H
         |split;
          [intros E; first [discriminate E | eexists; split; reflexivity]
          |intros (a' & Ea & Eb);
           first [reflexivity | discriminate Ea | discriminate Eb]]]
      |split;
       [intros e1 H;
        first
          [discriminate H
          |injection H as <-; split;
           [intros E; try discriminate E
           |intros (Ex & (a' & Ea) & Eb
                    & [(e' & Er & Ee)
                      | ((v & Ev) & (u1 & Eu) & Ek & (u2 & Et))]);
            first [reflexivity | discriminate Ea | discriminate Eb
                  | discriminate Er | discriminate Ev | congruence]]]
       |intros u1 e1 E H;
        first [reflexivity | discriminate E | discriminate H]]]]).
  - split; [reflexivity|]. split; [exists a; reflexivity|].
    split; [reflexivity|]. left. exists e. split; [reflexivity | exact He].
  - split; [reflexivity|]. split; [exists a; reflexivity|].
    split; [reflexivity|]. right. split; [eexists; reflexivity|].
    split; [exists u; exact Hs|]. split; [exact Hk|]. exists u'. exact Ht.
Qed.

(** X12.  The client is disconnected exactly when the [async with] block
    was entered and left: the call is then the last one, and made once.
    A run still listening, or one that never entered the block, makes no
    such call. *)
Theorem disconnects_iff_block_left (ble : Ble) (self : PokeballApp) :
  (In ClientExit (calls (connect_to_device utf8 ble self))
   <-> (exists a b, find_device_by_name ble = inr (Some a)
                    /\ client_enter ble = inr b)
       /\ status (connect_to_device utf8 ble self) <> Waiting) /\
  (In ClientExit (calls (connect_to_device utf8 ble self)) ->
   exists before,
     calls (connect_to_device utf8 ble self) = (before ++ [ClientExit])%list
     /\ ~ In ClientExit before).
Proof.
  assert (Hreads : forall reads info,
             read_device_info utf8 ble = (reads, info) ->
             ~ In ClientExit reads).
  { intros reads info Hi Hin.
    pose proof (SessionFacts.read_device_info_reads utf8 ble) as Hr.
    rewrite Hi in Hr. cbn [fst] in Hr. rewrite Forall_forall in Hr.
    destruct (Hr _ Hin) as (h & Hh). discriminate Hh. }
  paths ble self; unfold all_reads in *; cbn [List.app].
  - split; [split|]; [intros [H | []]; discriminate H
                     | intros [(a & b & Ea & _) _]; congruence
                     | intros [H | []]; discriminate H].
  - split; [split|]; [intros [H | []]; discriminate H
                     | intros [(a & b & Ea & _) _]; congruence
                     | intros [H | []]; discriminate H].
  - split; [split|]; [intros [H | [H | []]]; discriminate H
                     | intros [(a' & b & Ea & Eb) _]; congruence
                     | intros [H | [H | []]]; discriminate H].
  - split; [split|].
    + intros _. split; [exists a, false; split; assumption | discriminate].
    + intros _. cbn [In]. tauto.
    + intros _. exists [FindDeviceByName DEVICE_NAME 30; ClientEnter a].
      split; [reflexivity|]. intros [H | [H | []]]; discriminate H.
  - split; [split|].
    + intros _. split; [exists a, true; split; assumption | discriminate].
    + intros _. right; right. apply in_or_app. right. left. reflexivity.
    + intros _. exists (FindDeviceByName DEVICE_NAME 30 :: ClientEnter a :: reads).
      split; [reflexivity|].
      intros [H | [H | H]]; try discriminate H. exact (Hreads _ _ Hi H).
  - split; [split|].
    + intros _. split; [exists a, true; split; assumption | discriminate].
    + intros _. right; right. apply in_or_app. right. left. reflexivity.
    + intros _. exists (FindDeviceByName DEVICE_NAME 30 :: ClientEnter a :: reads).
      split; [reflexivity|].
      intros [H | [H | H]]; try discriminate H. exact (Hreads _ _ Hi H).
  - split; [split|].
    + intros _. split; [exists a, true; split; assumption | discriminate].
    + intros _. cbn [In]. tauto.
    + intros _.
      exists [FindDeviceByName DEVICE_NAME 30; ClientEnter a;
              ReadGattChar MANUFACTURER_NAME; ReadGattChar SOFTWARE_REVISION;
              ReadGattChar BATTERY_LEVEL; StartNotify INPUT].
      split; [reflexivity|]. cbn [In].
      intros H; repeat (destruct H as [H | H]; [discriminate H|]); exact H.
  - split; [split|].
    + cbn [In]. intros H.
      repeat (destruct H as [H | H]; [discriminate H|]); destruct H.
    + intros [_ H]. exfalso. apply H. reflexivity.
    + cbn [In]. intros H.
      repeat (destruct H as [H | H]; [discriminate H|]); destruct H.
  - split; [split|].
    + intros _. split; [exists a, true; split; assumption | discriminate].
    + intros _. cbn [In]. tauto.
    + intros _.
      exists [FindDeviceByName DEVICE_NAME 30; ClientEnter a;
              ReadGattChar MANUFACTURER_NAME; ReadGattChar SOFTWARE_REVISION;
              ReadGattChar BATTERY_LEVEL; StartNotify INPUT; StopNotify INPUT].
      split; [reflexivity|]. cbn [In].
      intros H; repeat (destruct H as [H | H]; [discriminate H|]); exact H.
  - split; [split|].
    + intros _. split; [exists a, true; split; assumption | discriminate].
    + intros _. cbn [In]. tauto.
    + intros _.
      exists [FindDeviceByName DEVICE_NAME 30; ClientEnter a;
              ReadGattChar MANUFACTURER_NAME; ReadGattChar SOFTWARE_REVISION;
              ReadGattChar BATTERY_LEVEL; StartNotify INPUT; StopNotify INPUT].
      split; [reflexivity|]. cbn [In].
      intros H; repeat (destruct H as [H | H]; [discriminate H|]); exact H.
Qed.

Ltac kill_in :=
  repeat match goal with
         | H : In _ (_ :: _) |- _ => destruct H as [H | H]
         | H : In _ (_ ++ _) |- _ => apply in_app_or in H; destruct H as [H | H]
         | H : In _ [] |- _ => destruct H
         | H : StartNotify _ = StartNotify _ |- _ => injection H as H; subst
         | H : StopNotify _ = StopNotify _ |- _ => injection H as H; subst
         | H : ?x = ?y |- _ => discriminate H
         end.

(** X13.  The only characteristic subscribed to or unsubscribed from is
    the input report.  The subscription is made only after the three
    reads succeeded; the unsubscription only after a subscription and a
    cancellation.  A run that returns after subscribing has unsubscribed,
    and a run left waiting is subscribed and has not. *)
Theorem subscription_is_balanced (ble : Ble) (self : PokeballApp) :
  (forall h, In (StartNotify h) (calls (connect_to_device utf8 ble self)) ->
     h = INPUT /\
     exists v, read_device_info utf8 ble = (all_reads, inr v)) /\
  (forall h, In (StopNotify h) (calls (connect_to_device utf8 ble self)) ->
     h = INPUT /\ cancelled ble = true /\
     In (StartNotify INPUT) (calls (connect_to_device utf8 ble self))) /\
  (status (connect_to_device utf8 ble self) = Returned ->
   In (StartNotify INPUT) (calls (connect_to_device utf8 ble self)) ->
   In (StopNotify INPUT) (calls (connect_to_device utf8 ble self))) /\
  (status (connect_to_device utf8 ble self) = Waiting ->
   In (StartNotify INPUT) (calls (connect_to_device utf8 ble self)) /\
   ~ In (StopNotify INPUT) (calls (connect_to_device utf8 ble self))).
Proof.
  assert (Hreads : forall reads info c,
             read_device_info utf8 ble = (reads, info) ->
             In c reads -> exists h, c = ReadGattChar h).
  { intros reads info c Hi Hin.
    pose proof (SessionFacts.read_device_info_reads utf8 ble) as Hr.
    rewrite Hi in Hr. cbn [fst] in Hr. rewrite Forall_forall in Hr.
    exact (Hr _ Hin). }
  paths ble self; unfold all_reads in *; cbn [List.app];
    (split; [intros h H | split; [intros h H | split; [intros H H' | intros H]]]);
    try discriminate H;
    try (kill_in; fail).
  all: try (kill_in;
            try match goal with
                | H : In _ ?reads, Hi : read_device_info _ _ = (?reads, _) |- _ =>
                    destruct (Hreads _ _ _ Hi H) as (? & Hq); discriminate Hq
                end;
            repeat split; try reflexivity; try assumption;
            try (eexists; eassumption);
            try (cbn [In]; tauto); fail).
  all: try (split; [cbn [In]; tauto | intros Hn; kill_in]).
Qed.


(** X15.  The coroutine is left waiting, subscribed and connected,
    exactly when the device was found and connected, the three reads gave
    their values, the subscription succeeded and no cancellation came; the
    log then ends with the listening line and the lines of the reports
    received. *)
Theorem waiting_iff_listening (ble : Ble) (self : PokeballApp) :
  (status (connect_to_device utf8 ble self) = Waiting
   <-> (exists a, find_device_by_name ble = inr (Some a)) /\
       client_enter ble = inr true /\
       (exists v, snd (read_device_info utf8 ble) = inr v) /\
       (exists u, start_notify ble = inr u) /\
       cancelled ble = false) /\
  (status (connect_to_device utf8 ble self) = Waiting ->
   exists before,
     log (Session.app (connect_to_device utf8 ble self))
     = (before ++ Listening :: map input_line (notifications ble))%list).
Proof.
  paths ble self;
    (split; [split; [intros H; try discriminate H
                    | intros ((a' & Ha) & Hb & (v & Hv) & (u0 & Hu) & Hn);
                      try rewrite Hi in Hv; cbn [snd] in *;
                      try congruence]
            | intros H; try discriminate H]).
  - split; [exists a; exact Hf|]. split; [exact Hc|].
    split; [rewrite Hi; eexists; reflexivity|].
    split; [exists u; exact Hs | exact Hk].
  - eexists. rewrite app_assoc.
    change [Scanning; Found a; Connected; Manufacturer name;
            BatteryLevel battery; SoftwareRev rev; Listening]
      with ([Scanning; Found a; Connected; Manufacturer name;
             BatteryLevel battery; SoftwareRev rev] ++ [Listening])%list.
    rewrite !app_assoc. rewrite <- app_assoc. reflexivity.
Qed.

(** X16.  Whenever the coroutine returns, the last line of the log tells
    why: not found, failed to connect, an error reading the device
    information, or stopped. *)
Theorem every_return_is_logged (ble : Ble) (self : PokeballApp) :
  status (connect_to_device utf8 ble self) = Returned ->
  exists (before : list log_line) (last : log_line),
    log (Session.app (connect_to_device utf8 ble self))
    = (before ++ [last])%list /\
    (last = NotFound \/ last = FailedToConnect
     \/ (exists e, last = ErrorReading e) \/ last = Stopped).
Proof.
  paths ble self; intros H; try discriminate H.
  - exists (log self ++ [Scanning])%list, NotFound.
    split; [rewrite <- app_assoc; reflexivity | left; reflexivity].
  - exists (log self ++ [Scanning; Found a])%list, FailedToConnect.
    split; [rewrite <- app_assoc; reflexivity | right; left; reflexivity].
  - exists (log self ++ [Scanning; Found a; Connected])%list, (ErrorReading e).
    split; [rewrite <- app_assoc; reflexivity|].
    right; right; left. exists e. reflexivity.
  - exists (log self ++ [Scanning; Found a; Connected; Manufacturer name;
                         BatteryLevel battery; SoftwareRev rev; Listening]
              ++ map input_line (notifications ble))%list, Stopped.
    split; [rewrite <- !app_assoc; reflexivity|]. right; right; right. reflexivity.
Qed.

(** X17.  An exception leaves the coroutine only when it was raised by
    the scan, by the connection on entering the [async with] block, by the
    disconnection on leaving it, or, the disconnection returning, by the
    subscription, by the unsubscription after a cancellation, or by a read
    whose exception is not an [Exception]; no report received while
    listening makes the coroutine raise. *)
Theorem raised_comes_from_ble
  (aexit : result unit) (ble : Ble) (self : PokeballApp) (e : exn) :
  status (connect_to_device_aexit utf8 aexit ble self) = Raised e ->
  find_device_by_name ble = inl e
  \/ client_enter ble = inl e
  \/ (aexit = inl e /\
      exists a b, find_device_by_name ble = inr (Some a)
                  /\ client_enter ble = inr b)
  \/ ((exists u, aexit = inr u) /\
      ((snd (read_device_info utf8 ble) = inl e /\ is_Exception e = false)
       \/ start_notify ble = inl e
       \/ (cancelled ble = true /\ stop_notify ble = inl e))).
Proof.
  rewrite aexit_run. unfold block_entered.
  paths ble self; rewrite ?Hf, ?Hc; destruct aexit as [x | u0];
    intros H; try discriminate H; injection H as <-;
    try (left; reflexivity);
    try (right; left; reflexivity);
    try (right; right; left; split;
         [reflexivity | eexists _, _; split; reflexivity]);
    right; right; right; (split; [exists u0; reflexivity|]).
  - left. rewrite Hi. split; [reflexivity | assumption].
  - right; left. assumption.
  - right; right. split; assumption.
Qed.

End WithDecode.


Lemma every_return_is_logged_witness :
  exists (before : list log_line) (last : log_line),
    log (Session.app
           (connect_to_device Scenarios.ascii_only Scenarios.ble_read_fails
              Scenarios.fresh_app))
    = (before ++ [last])%list /\
    (last = NotFound \/ last = FailedToConnect
     \/ (exists e, last = ErrorReading e) \/ last = Stopped).
Proof.
  apply (every_return_is_logged Scenarios.ascii_only Scenarios.ble_read_fails
           Scenarios.fresh_app).
  reflexivity.
Defined.

(** A read fails, its error is caught and the button enabled, and the
    disconnection then raises: the exception leaves the coroutine with
    the button enabled. *)
Example disconnection_raises_after_read_error :
  connect_to_device_aexit Scenarios.ascii_only
    (inl Scenarios.disconnect_failed) Scenarios.ble_read_fails
    Scenarios.fresh_app
  = mkRun
      (mkApp [Scanning; Found "D0:0D"; Connected;
              ErrorReading (BleakError "read failed")] true)
      [FindDeviceByName DEVICE_NAME 30; ClientEnter "D0:0D";
       ReadGattChar MANUFACTURER_NAME; ReadGattChar SOFTWARE_REVISION;
       ClientExit]
      (Raised Scenarios.disconnect_failed).
Proof. reflexivity. Qed.

(** The scan raises: the block is never entered and no disconnection is
    made, whatever it would have given. *)
Example scan_raises_run :
  connect_to_device_aexit Scenarios.ascii_only
    (inl Scenarios.disconnect_failed) FullRun.ble_scan_raises
    Scenarios.fresh_app
  = mkRun (mkApp [Scanning] false) [FindDeviceByName DEVICE_NAME 30]
      (Raised (BleakError "adapter off")).
Proof. reflexivity. Qed.

Lemma raised_comes_from_ble_witness :
  find_device_by_name Scenarios.ble_read_fails
  = inl Scenarios.disconnect_failed
  \/ client_enter Scenarios.ble_read_fails = inl Scenarios.disconnect_failed
  \/ (@inl exn unit Scenarios.disconnect_failed
      = inl Scenarios.disconnect_failed /\
      exists a b, find_device_by_name Scenarios.ble_read_fails = inr (Some a)
                  /\ client_enter Scenarios.ble_read_fails = inr b)
  \/ ((exists u, @inl exn unit Scenarios.disconnect_failed = inr u) /\
      ((snd (read_device_info Scenarios.ascii_only Scenarios.ble_read_fails)
        = inl Scenarios.disconnect_failed
        /\ is_Exception Scenarios.disconnect_failed = false)
       \/ start_notify Scenarios.ble_read_fails
          = inl Scenarios.disconnect_failed
       \/ (cancelled Scenarios.ble_read_fails = true
           /\ stop_notify Scenarios.ble_read_fails
              = inl Scenarios.disconnect_failed))).
Proof.
  apply (raised_comes_from_ble Scenarios.ascii_only
           (inl Scenarios.disconnect_failed) Scenarios.ble_read_fails
           Scenarios.fresh_app Scenarios.disconnect_failed).
  reflexivity.
Defined.

End SessionMore.
